(** * UNFCCC submissions scraper: a shallow embedding of [main.py]

    The development follows the source file top to bottom:

    - the Python objects the scraper builds (strings, [None], lists and
      insertion-ordered dicts) and the few built-in operations it applies to
      them ([str.replace], [dict.pop], [{**a, **b}], iteration, [in]);
    - the exceptions that can travel through the code: an error monad while
      a page is read, explicit passing of the world while pages are turned,
      explicit passing of the mutated objects in the CSV export;
    - the Selenium session as an interface ([WebDriver]), so that every result
      holds for any site and any failure behaviour of the browser;
    - [find_text_element], [_parse_submissions], [parse_submissions],
      [write_to_json], [write_to_csv] and the two export calls of [main];
    - a small static site implementing the interface, used to run the code on
      concrete pages. *)

From Stdlib Require Import String Ascii List Bool Arith Lia.
Import ListNotations.
Open Scope string_scope.
Open Scope list_scope.

Set Warnings "-register-all".

(** ** Python objects *)

(** The four kinds of object the scraper creates and exports.  A dict keeps
    its insertion order (it decides the order of CSV rows and columns), so it
    is an association list. *)
Inductive value : Type :=
| VNone
| VStr (s : string)
| VList (items : list value)
| VDict (entries : list (string * value)).

Definition dict : Type := list (string * value).

(** [Optional[str]] as returned by [find_text_element] and [get_attribute]. *)
Definition of_option (o : option string) : value :=
  match o with
  | Some s => VStr s
  | None => VNone
  end.

Module Dict.

(** [d[k]] / [d.get(k)]. *)
Fixpoint get (k : string) (d : dict) : option value :=
  match d with
  | [] => None
  | (k', v) :: rest => if String.eqb k k' then Some v else get k rest
  end.

(** [k in d]. *)
Definition mem (k : string) (d : dict) : bool :=
  match get k d with
  | Some _ => true
  | None => false
  end.

(** [d[k] = v]: an existing key keeps its position, a new key goes last. *)
Fixpoint set (k : string) (v : value) (d : dict) : dict :=
  match d with
  | [] => [(k, v)]
  | (k', v') :: rest =>
      if String.eqb k k' then (k', v) :: rest else (k', v') :: set k v rest
  end.

(** [del d[k]]. *)
Definition remove (k : string) (d : dict) : dict :=
  filter (fun kv => negb (String.eqb k (fst kv))) d.

(** [d.pop(k)]: the value and what is left of the dict, [None] for the
    [KeyError] case. *)
Definition pop (k : string) (d : dict) : option (value * dict) :=
  match get k d with
  | Some v => Some (v, remove k d)
  | None => None
  end.

(** [{**a, **b}]: a new dict, a copy of [a] updated with the entries of [b]
    in their order (a key of both keeps its position in [a] and takes its
    value from [b]). *)
Definition merge (a b : dict) : dict :=
  fold_left (fun acc kv => set (fst kv) (snd kv) acc) b a.

Definition keys (d : dict) : list string := map fst d.

End Dict.

(** ** Strings *)

Fixpoint is_prefix (p s : string) : bool :=
  match p, s with
  | EmptyString, _ => true
  | String a p', String b s' => Ascii.eqb a b && is_prefix p' s'
  | String _ _, EmptyString => false
  end.

(** [needle in haystack] for two strings. *)
Fixpoint is_substring (needle haystack : string) : bool :=
  is_prefix needle haystack
  || match haystack with
     | EmptyString => false
     | String _ rest => is_substring needle rest
     end.

(** The scan of [str.replace] for a non-empty [old]: [skip] counts the
    characters of the occurrence just replaced that are still to be dropped
    (occurrences do not overlap, the scan goes left to right). *)
Fixpoint replace_scan (old new : string) (skip : nat) (s : string) : string :=
  match s with
  | EmptyString => EmptyString
  | String c rest =>
      match skip with
      | S k => replace_scan old new k rest
      | O =>
          if is_prefix old s
          then new ++ replace_scan old new (String.length old - 1) rest
          else String c (replace_scan old new 0 rest)
      end
  end.

(** With an empty [old], Python puts [new] before every character and at
    the end. *)
Fixpoint intersperse_str (new s : string) : string :=
  match s with
  | EmptyString => new
  | String c rest => new ++ String c (intersperse_str new rest)
  end.

(** [s.replace(old, new)]. *)
Definition replace (s old new : string) : string :=
  match old with
  | EmptyString => intersperse_str new s
  | String _ _ => replace_scan old new 0 s
  end.

(** ** Exceptions *)

Inductive exn : Type :=
| NoSuchElementException
| TimeoutException
| WebDriverException (msg : string)
| TypeError
| KeyError (key : string)
| AttributeError.

Inductive result (A : Type) : Type :=
| Ok (a : A)
| Raise (e : exn).

Arguments Ok {A} a.
Arguments Raise {A} e.

Definition bind {A B : Type} (m : result A) (k : A -> result B) : result B :=
  match m with
  | Ok a => k a
  | Raise e => Raise e
  end.

Declare Scope py_scope.
Delimit Scope py_scope with py.
Notation "x <- m ;; k" := (bind m (fun x => k))
  (at level 61, m at next level, right associativity) : py_scope.
Open Scope py_scope.

(** A [for] loop that threads an accumulator and stops at the first
    exception. *)
Fixpoint for_each {A S : Type} (body : S -> A -> result S) (xs : list A) (acc : S)
  : result S :=
  match xs with
  | [] => Ok acc
  | x :: rest => acc' <- body acc x ;; for_each body rest acc'
  end.

(** ** Constants of [main.py] *)

Definition SUBMISSIONS_URL : string :=
  "https://www4.unfccc.int/sites/submissionsstaging/Pages/Home.aspx".

Definition RELEVANT_ENTITY_TYPES : list string :=
  [ "IGO"; "NAO"; "NGO"; "Elections Chairs and Coordinators"; "Party"; "UN";
    "Observer State" ].

Definition HOME_PATH : string := "/sites/submissionsstaging/Pages/Home.aspx".

(** ** The Selenium session

    Everything the scraper asks of Selenium, as an interface.  [world] is the
    state of what lies outside the program: the browser session, the site
    behind it and the clock.  Looking at the page leaves the world as it is;
    clicking, waiting, scrolling and sleeping may change it.  Every call can
    raise. *)
Class WebDriver (world elem : Type) : Type := {
  (** [driver.find_element(By.XPATH, xpath)] *)
  driver_find_element : world -> string -> result elem;
  (** [driver.find_elements(By.XPATH, xpath)] *)
  driver_find_elements : world -> string -> result (list elem);
  (** [elem.find_element(By.XPATH, xpath)] *)
  find_element : world -> elem -> string -> result elem;
  (** [elem.find_elements(By.XPATH, xpath)] *)
  find_elements : world -> elem -> string -> result (list elem);
  (** [elem.text] *)
  text : world -> elem -> result string;
  (** [elem.get_attribute(name)]: [None] when the attribute is not there *)
  get_attribute : world -> elem -> string -> result (option string);
  (** [driver.current_url] *)
  current_url : world -> result string;
  (** [elem.click()] *)
  click : world -> elem -> result unit * world;
  (** [WebDriverWait(driver, seconds).until(EC.presence_of_element_located((By.XPATH, xpath)))] *)
  wait_presence : world -> nat -> string -> result unit * world;
  (** [driver.execute_script(script)] *)
  execute_script : world -> string -> result unit * world;
  (** [time.sleep(seconds)] *)
  sleep : nat -> world -> world;
  (** [datetime.now().strftime("%d-%m-%Y %H:%M:%S")] *)
  now : world -> string
}.

(** The XPath expressions of [main.py]. *)
Definition GRID_XPATH : string :=
  "//div[@class = 'panel-collapse collapse in']//div[@class = 'soby_gridcell ']".
Definition ISSUE_XPATH : string :=
  ".//div[@class = 'submissioncallarea']/div//div[@class = 'col-md-10 issue']".
Definition DEADLINE_XPATH : string :=
  ".//div[@class = 'submissioncallarea']/div//div[@class = 'col-md-7 deadline']".
Definition TITLE_XPATH : string :=
  ".//div[@class = 'submissioncallarea']/div//div[@class = 'col-md-10 cfstitle']".
Definition MANDATE_XPATH : string :=
  ".//div[@class = 'submissioncallarea']/div//div[@class = 'col-md-10 mandate']".
Definition SECTION_XPATH : string :=
  ".//div[@class = 'container submissionarea']/div[@class = 'submissionssection']".
Definition ROW_XPATH : string := ".//div[contains(@class, 'row tablefilerow ')]".
Definition FILENAME_XPATH : string := ".//div[@class = 'col-sm-4 filename']".
Definition ENTITY_XPATH : string := ".//div[@class = 'col-sm-4 entity']".
Definition LANGUAGE_XPATH : string := ".//div[@class = 'col-sm-2 language']".
Definition DATE_XPATH : string := ".//div[@class = 'col-sm-2 submissiondate']".
Definition NEXT_XPATH : string := "//a[contains(@onclick, '.GoToNextPage()')]".
Definition AREA_XPATH : string := "//div[@class = 'submissioncallarea']".
Definition SCROLL_SCRIPT : string := "window.scrollTo(0,document.body.scrollHeight)".

(** [entity_type in RELEVANT_ENTITY_TYPES], for the [Optional[str]] that
    [get_attribute] returns. *)
Definition relevant (entity_type : option string) : bool :=
  match entity_type with
  | Some et => existsb (String.eqb et) RELEVANT_ENTITY_TYPES
  | None => false
  end.

(** [url.replace(HOME_PATH, fileref)]: [str.replace] refuses [None]. *)
Definition replace_fileref (url : string) (fileref : option string) : result string :=
  match fileref with
  | Some ref => Ok (replace url HOME_PATH ref)
  | None => Raise TypeError
  end.

(** [submissions[entity_type].append(item)]. *)
Definition append_to (entity_type : string) (item : value) (submissions : dict)
  : result dict :=
  match Dict.get entity_type submissions with
  | Some (VList items) => Ok (Dict.set entity_type (VList (items ++ [item])) submissions)
  | Some _ => Raise AttributeError
  | None => Raise (KeyError entity_type)
  end.

(** The dict literal appended for one file row. *)
Definition submission_item (name entity language date : option string) (sub_url : string)
  : value :=
  VDict [ ("submission_name", of_option name);
          ("submission_entity", of_option entity);
          ("submission_language", of_option language);
          ("submission_date", of_option date);
          ("submission_url", VStr sub_url) ].

(** The [sub_dict] of one grid cell once all its keys are set. *)
Definition submission_record (issue deadline title mandate : option string)
  (submissions : dict) : value :=
  VDict
    (Dict.set "submissions" (VDict submissions)
       (Dict.set "mandate" (of_option mandate)
          (Dict.set "title" (of_option title)
             (Dict.set "deadline" (of_option deadline)
                (Dict.set "issue" (of_option issue) []))))).

(** The dict [parse_submissions] returns. *)
Definition aggregate (collected_at : string) (subs_container : list value) : dict :=
  [ ("data_source", VStr SUBMISSIONS_URL);
    ("collected_at", VStr collected_at);
    ("submissions_data", VList subs_container) ].

(** What one round of the pagination loop does once the page is parsed:
    leave the loop ([break]), go round again in a new world, or let an
    exception out. *)
Inductive turn (world : Type) : Type :=
| Done (w : world)
| Continue (w : world)
| Fatal (e : exn) (w : world).

Arguments Done {world} w.
Arguments Continue {world} w.
Arguments Fatal {world} e w.

Section Scraper.

Context {world elem : Type} {driver : WebDriver world elem}.

(** *** [find_text_element] *)
Definition find_text_element (w : world) (el : elem) (xpath : string)
  : result (option string) :=
  match (found <- find_element w el xpath ;; text w found) with
  | Ok t => Ok (Some t)
  | Raise NoSuchElementException => Ok None
  | Raise e => Raise e
  end.

(** *** [_parse_submissions] *)

(** Body of [for submission in submissions]. *)
Definition parse_row (w : world) (entity_type : string) (submissions : dict)
  (submission : elem) : result dict :=
  url <- current_url w ;;
  fileref <- get_attribute w submission "fileref" ;;
  sub_url <- replace_fileref url fileref ;;
  name <- find_text_element w submission FILENAME_XPATH ;;
  entity <- find_text_element w submission ENTITY_XPATH ;;
  language <- find_text_element w submission LANGUAGE_XPATH ;;
  date <- find_text_element w submission DATE_XPATH ;;
  append_to entity_type (submission_item name entity language date sub_url) submissions.

(** Body of [for submission_section in submission_sections]. *)
Definition parse_section (w : world) (submissions : dict) (submission_section : elem)
  : result dict :=
  entity_type <- get_attribute w submission_section "entitytype" ;;
  match entity_type with
  | Some et =>
      if relevant entity_type then
        let submissions := Dict.set et (VList []) submissions in
        rows <- find_elements w submission_section ROW_XPATH ;;
        match rows with
        | [] => Ok submissions
        | _ :: _ => for_each (parse_row w et) rows submissions
        end
      else Ok submissions
  | None => Ok submissions
  end.

(** Body of [for submission_grid in submission_grids], up to the append. *)
Definition parse_grid (w : world) (submission_grid : elem) : result value :=
  issue <- find_text_element w submission_grid ISSUE_XPATH ;;
  deadline <- find_text_element w submission_grid DEADLINE_XPATH ;;
  title <- find_text_element w submission_grid TITLE_XPATH ;;
  mandate <- find_text_element w submission_grid MANDATE_XPATH ;;
  submission_sections <- find_elements w submission_grid SECTION_XPATH ;;
  submissions <- for_each (parse_section w) submission_sections [] ;;
  Ok (submission_record issue deadline title mandate submissions).

Definition _parse_submissions (w : world) : result (list value) :=
  submission_grids <- driver_find_elements w GRID_XPATH ;;
  for_each
    (fun submission_list grid =>
       sub_dict <- parse_grid w grid ;; Ok (submission_list ++ [sub_dict]))
    submission_grids [].

(** *** [parse_submissions] *)

(** The [try] block: find the next-page link and click it. *)
Definition try_next_page (w : world) : result unit * world :=
  match driver_find_element w NEXT_XPATH with
  | Ok nxt => click w nxt
  | Raise e => (Raise e, w)
  end.

(** The rest of the loop body after [subs_container.extend(...)]: the bare
    [except] turns any exception of the [try] block into [break]; the wait
    and the scroll are outside the [try]. *)
Definition turn_page (w : world) : turn world :=
  match try_next_page w with
  | (Raise _, w1) => Done w1
  | (Ok _, w1) =>
      match wait_presence w1 20 AREA_XPATH with
      | (Raise e, w2) => Fatal e w2
      | (Ok _, w2) =>
          match execute_script w2 SCROLL_SCRIPT with
          | (Raise e, w3) => Fatal e w3
          | (Ok _, w3) => Continue (sleep 3 w3)
          end
      end
  end.

(** The [while True] loop.  [fuel] bounds the number of pages visited;
    [None] means the bound was reached with the loop still running. *)
Fixpoint pagination (fuel : nat) (subs_container : list value) (w : world)
  : option (result (list value) * world) :=
  match fuel with
  | O => None
  | S fuel' =>
      match _parse_submissions w with
      | Raise e => Some (Raise e, w)
      | Ok page =>
          let subs_container := subs_container ++ page in
          match turn_page w with
          | Done w' => Some (Ok subs_container, w')
          | Fatal e w' => Some (Raise e, w')
          | Continue w' => pagination fuel' subs_container w'
          end
      end
  end.

Definition parse_submissions (fuel : nat) (w : world) : option (result dict * world) :=
  match pagination fuel [] w with
  | None => None
  | Some (Raise e, w') => Some (Raise e, w')
  | Some (Ok subs_container, w') => Some (Ok (aggregate (now w') subs_container), w')
  end.

End Scraper.

(** ** The exporters

    Python passes the aggregate by reference, and [write_to_csv] changes it
    and objects below it in place.  The objects [parse_submissions] builds
    form a tree (every dict and list is created by its own literal and stored
    in one place), so a state is the tree itself and an in-place update
    rebuilds the path to the updated object.  Each function returns what it
    hands to the file writer together with the objects as it leaves them. *)

(** [for x in v]: the items the loop visits. *)
Definition iterate (v : value) : result (list value) :=
  match v with
  | VNone => Raise TypeError
  | VStr s => Ok (map (fun c => VStr (String c EmptyString)) (list_ascii_of_string s))
  | VList items => Ok items
  | VDict d => Ok (map (fun kv => VStr (fst kv)) d)
  end.

(** The iterated object after its items were updated in place: only a list
    holds objects that can be updated (the characters of a string and the
    keys of a dict are strings). *)
Definition store_items (v : value) (items : list value) : value :=
  match v with
  | VList _ => VList items
  | _ => v
  end.

(** [needle in v]. *)
Definition contains (needle : string) (v : value) : result bool :=
  match v with
  | VNone => Raise TypeError
  | VStr s => Ok (is_substring needle s)
  | VList items =>
      Ok (existsb (fun x => match x with
                            | VStr s => String.eqb needle s
                            | _ => false
                            end) items)
  | VDict d => Ok (Dict.mem needle d)
  end.

(** Rows found so far followed by the rows of the rest of a loop. *)
Definition rows_then (rows : list dict) (more : result (list dict)) : result (list dict) :=
  more <- more ;; Ok (rows ++ more).

(** *** [write_to_json]: [json.dump] reads the aggregate and writes it out
    as it is. *)
Definition write_to_json (submissions_data : dict) : value * dict :=
  (VDict submissions_data, submissions_data).

(** *** [write_to_csv] *)

(** [for submission_metadata in submission_list]: the rows appended to
    [container], and the items as the loop leaves them. *)
Fixpoint flatten_items (submission_entity_type : string) (issue : dict)
  (items : list value) : result (list dict) * list value :=
  match items with
  | [] => (Ok [], [])
  | VDict submission_metadata :: rest =>
      let submission_metadata :=
        Dict.set "entity_type" (VStr submission_entity_type) submission_metadata in
      let (more, rest') := flatten_items submission_entity_type issue rest in
      (rows_then [Dict.merge submission_metadata issue] more,
       VDict submission_metadata :: rest')
  | _ :: _ => (Raise TypeError, items)
  end.

(** [for (submission_entity_type, submission_list) in
    issue_specific_submissions.items()]. *)
Fixpoint flatten_categories (issue : dict) (issue_specific_submissions : dict)
  : result (list dict) * dict :=
  match issue_specific_submissions with
  | [] => (Ok [], [])
  | (submission_entity_type, submission_list) :: rest =>
      match iterate submission_list with
      | Raise e => (Raise e, issue_specific_submissions)
      | Ok items =>
          let (rows, items') := flatten_items submission_entity_type issue items in
          let entry := (submission_entity_type, store_items submission_list items') in
          match rows with
          | Raise e => (Raise e, entry :: rest)
          | Ok rows =>
              let (more, rest') := flatten_categories issue rest in
              (rows_then rows more, entry :: rest')
          end
      end
  end.

(** Body of [for issue in submissions_all].  [submissions_data] is the
    aggregate after the pop.  The mapping that is walked is the one of the
    merged dict: the record's, unless the aggregate has a [submissions] entry
    of its own, which then wins the merge and is the object updated. *)
Definition flatten_issue (submissions_data : dict) (issue : value)
  : result (list dict) * (dict * value) :=
  match contains "submissions" issue with
  | Raise e => (Raise e, (submissions_data, issue))
  | Ok false => (Ok [], (submissions_data, issue))
  | Ok true =>
      match issue with
      | VDict fields =>
          match Dict.pop "submissions" (Dict.merge fields submissions_data) with
          | None => (Raise (KeyError "submissions"), (submissions_data, issue))
          | Some (VDict issue_specific_submissions, merged) =>
              let (rows, updated) := flatten_categories merged issue_specific_submissions in
              (rows,
               if Dict.mem "submissions" submissions_data
               then (Dict.set "submissions" (VDict updated) submissions_data, issue)
               else (submissions_data, VDict (Dict.set "submissions" (VDict updated) fields)))
          | Some (_, _) => (Raise AttributeError, (submissions_data, issue))
          end
      | _ => (Raise TypeError, (submissions_data, issue))
      end
  end.

(** [for issue in submissions_all]. *)
Fixpoint flatten_issues (submissions_data : dict) (issues : list value)
  : result (list dict) * (dict * list value) :=
  match issues with
  | [] => (Ok [], (submissions_data, []))
  | issue :: rest =>
      let '(rows, (submissions_data, issue')) := flatten_issue submissions_data issue in
      match rows with
      | Raise e => (Raise e, (submissions_data, issue' :: rest))
      | Ok rows =>
          let '(more, (submissions_data, rest')) := flatten_issues submissions_data rest in
          (rows_then rows more, (submissions_data, issue' :: rest'))
      end
  end.

(** What a call of [write_to_csv] leaves behind: the [container] given to
    [pd.DataFrame] (one dict per data row) or the exception raised, the
    caller's aggregate dict, and the object that was stored under
    [submissions_data] (no longer reachable from the aggregate). *)
Record csv_run : Type := {
  container : result (list dict);
  aggregate_after : dict;
  submissions_all_after : option value
}.

Definition write_to_csv (submissions_data : dict) : csv_run :=
  match Dict.pop "submissions_data" submissions_data with
  | None =>
      {| container := Raise (KeyError "submissions_data");
         aggregate_after := submissions_data;
         submissions_all_after := None |}
  | Some (submissions_all, submissions_data) =>
      match iterate submissions_all with
      | Raise e =>
          {| container := Raise e;
             aggregate_after := submissions_data;
             submissions_all_after := Some submissions_all |}
      | Ok issues =>
          let '(rows, (submissions_data, issues')) := flatten_issues submissions_data issues in
          {| container := rows;
             aggregate_after := submissions_data;
             submissions_all_after := Some (store_items submissions_all issues') |}
      end
  end.

(** *** [main], from the aggregate on: the JSON document, then the CSV
    rows, written from the same object. *)
Definition export (submissions_data : dict) : value * csv_run :=
  let (document, submissions_data) := write_to_json submissions_data in
  (document, write_to_csv submissions_data).

(** The two calls in the other order. *)
Definition export_csv_first (submissions_data : dict) : csv_run * value :=
  let run := write_to_csv submissions_data in
  (run, fst (write_to_json (aggregate_after run))).

(** ** Counting sub-items in the nested document *)

Definition list_length (v : value) : nat :=
  match v with
  | VList items => List.length items
  | _ => 0
  end.

(** Sub-items of one record, over all its categories. *)
Definition record_subitems (record : value) : nat :=
  match record with
  | VDict fields =>
      match Dict.get "submissions" fields with
      | Some (VDict categories) => list_sum (map (fun kv => list_length (snd kv)) categories)
      | _ => 0
      end
  | _ => 0
  end.

(** Sub-items of the whole document. *)
Definition document_subitems (document : value) : nat :=
  match document with
  | VDict d =>
      match Dict.get "submissions_data" d with
      | Some (VList records) => list_sum (map record_subitems records)
      | _ => 0
      end
  | _ => 0
  end.

(** ** Vocabulary of the statements *)

(** The aggregate without its record list: what [write_to_csv] merges into
    every record. *)
Definition metadata (collected_at : string) : dict :=
  [ ("data_source", VStr SUBMISSIONS_URL); ("collected_at", VStr collected_at) ].

(** A sub-item with its category written into it. *)
Definition tagged_item (category : string) (item : value) : value :=
  match item with
  | VDict fields => VDict (Dict.set "entity_type" (VStr category) fields)
  | _ => item
  end.

Definition tagged_category (entry : string * value) : string * value :=
  match entry with
  | (category, VList items) => (category, VList (map (tagged_item category) items))
  | _ => entry
  end.

(** A record whose sub-items all carry their category. *)
Definition tagged_record (record : value) : value :=
  match record with
  | VDict fields =>
      match Dict.get "submissions" fields with
      | Some (VDict categories) =>
          VDict (Dict.set "submissions" (VDict (map tagged_category categories)) fields)
      | _ => record
      end
  | _ => record
  end.

(** The shape of what the record parser builds: five fields, the last a
    mapping whose values are lists of dicts. *)
Definition list_of_dicts (v : value) : Prop :=
  exists items, v = VList items /\ Forall (fun item => exists fields, item = VDict fields) items.

Definition record_shape (record : value) : Prop :=
  exists issue deadline title mandate categories,
    record = VDict [ ("issue", issue); ("deadline", deadline); ("title", title);
                     ("mandate", mandate); ("submissions", VDict categories) ]
    /\ Forall (fun entry => list_of_dicts (snd entry)) categories.

Section Vocabulary.

Context {world elem : Type} {driver : WebDriver world elem}.

(** [row] is a file row of a group of [grid] whose [entitytype] attribute is
    [category]. *)
Definition row_of_category (w : world) (grid : elem) (category : string) (row : elem)
  : Prop :=
  exists sections section rows,
    find_elements w grid SECTION_XPATH = Ok sections /\ In section sections /\
    get_attribute w section "entitytype" = Ok (Some category) /\
    find_elements w section ROW_XPATH = Ok rows /\ In row rows.

(** [item] is the sub-item built from [row]: its four optional texts, and
    the current URL with the listing path replaced by the row's [fileref]. *)
Definition item_of_row (w : world) (row : elem) (item : value) : Prop :=
  exists url ref name entity language date,
    current_url w = Ok url /\
    get_attribute w row "fileref" = Ok (Some ref) /\
    find_text_element w row FILENAME_XPATH = Ok name /\
    find_text_element w row ENTITY_XPATH = Ok entity /\
    find_text_element w row LANGUAGE_XPATH = Ok language /\
    find_text_element w row DATE_XPATH = Ok date /\
    item = submission_item name entity language date (replace url HOME_PATH ref).

(** An entry of a record's mapping: an allowed category, bound to a list of
    sub-items built from rows of that category in [grid]. *)
Definition category_of_grid (w : world) (grid : elem) (entry : string * value) : Prop :=
  In (fst entry) RELEVANT_ENTITY_TYPES /\
  exists items,
    snd entry = VList items /\
    Forall (fun item => exists row,
                row_of_category w grid (fst entry) row /\ item_of_row w row item) items.

(** [record] is the record built from [grid]. *)
Definition record_of_grid (w : world) (grid : elem) (record : value) : Prop :=
  exists issue deadline title mandate submissions,
    find_text_element w grid ISSUE_XPATH = Ok issue /\
    find_text_element w grid DEADLINE_XPATH = Ok deadline /\
    find_text_element w grid TITLE_XPATH = Ok title /\
    find_text_element w grid MANDATE_XPATH = Ok mandate /\
    record = submission_record issue deadline title mandate submissions /\
    Forall (category_of_grid w grid) submissions.

(** A run of the scraper over a site, page by page: the records each page
    yields, from the world where the first page is shown to the world where
    the loop is left. *)
Inductive crawl : world -> list (list value) -> world -> Prop :=
| crawl_last (w w' : world) (page : list value) :
    _parse_submissions w = Ok page ->
    turn_page w = Done w' ->
    crawl w [page] w'
| crawl_more (w w1 w' : world) (page : list value) (pages : list (list value)) :
    _parse_submissions w = Ok page ->
    turn_page w = Continue w1 ->
    crawl w1 pages w' ->
    crawl w (page :: pages) w'.

End Vocabulary.

(** ** A static site

    An implementation of [WebDriver] over pages given as data, to run the
    scraper on concrete input: a page is a list of grid cells, a grid cell has
    four optional text regions and a list of sections, a section has an
    optional [entitytype] attribute and file rows.  A next-page link can be
    missing, working, or present but failing when clicked; a page may never
    show its panel (the wait then times out), and the session may be dead
    (every call raises). *)
Module StaticSite.

Record file_row : Type := {
  r_fileref : option string;
  r_filename : option string;
  r_entity : option string;
  r_language : option string;
  r_date : option string
}.

Record section : Type := {
  s_entitytype : option string;
  s_rows : list file_row
}.

Record grid : Type := {
  g_issue : option string;
  g_deadline : option string;
  g_title : option string;
  g_mandate : option string;
  g_sections : list section
}.

Inductive next_link : Type :=
| NoLink
| Link
| BrokenLink (e : exn).

Record page : Type := {
  p_url : string;
  p_grids : list grid;
  p_next : next_link;
  p_loads : bool
}.

Record world : Type := {
  session_alive : bool;
  current : page;
  following : list page;
  clock : string
}.

Inductive elem : Type :=
| Grid (g : grid)
| Section (s : section)
| Row (r : file_row)
| Region (t : string)
| NextLink.

Definition dead : exn := WebDriverException "invalid session id".

Definition alive {A : Type} (w : world) (r : result A) : result A :=
  if session_alive w then r else Raise dead.

Definition region (o : option string) : result elem :=
  match o with
  | Some t => Ok (Region t)
  | None => Raise NoSuchElementException
  end.

Definition site_find_element (w : world) (el : elem) (xpath : string) : result elem :=
  alive w
    match el with
    | Grid g =>
        if String.eqb xpath ISSUE_XPATH then region (g_issue g)
        else if String.eqb xpath DEADLINE_XPATH then region (g_deadline g)
        else if String.eqb xpath TITLE_XPATH then region (g_title g)
        else if String.eqb xpath MANDATE_XPATH then region (g_mandate g)
        else Raise NoSuchElementException
    | Row r =>
        if String.eqb xpath FILENAME_XPATH then region (r_filename r)
        else if String.eqb xpath ENTITY_XPATH then region (r_entity r)
        else if String.eqb xpath LANGUAGE_XPATH then region (r_language r)
        else if String.eqb xpath DATE_XPATH then region (r_date r)
        else Raise NoSuchElementException
    | _ => Raise NoSuchElementException
    end.

Definition site_find_elements (w : world) (el : elem) (xpath : string)
  : result (list elem) :=
  alive w
    match el with
    | Grid g =>
        if String.eqb xpath SECTION_XPATH then Ok (map Section (g_sections g)) else Ok []
    | Section s =>
        if String.eqb xpath ROW_XPATH then Ok (map Row (s_rows s)) else Ok []
    | _ => Ok []
    end.

Definition site_text (w : world) (el : elem) : result string :=
  alive w
    match el with
    | Region t => Ok t
    | _ => Ok EmptyString
    end.

Definition site_get_attribute (w : world) (el : elem) (name : string)
  : result (option string) :=
  alive w
    match el with
    | Section s => if String.eqb name "entitytype" then Ok (s_entitytype s) else Ok None
    | Row r => if String.eqb name "fileref" then Ok (r_fileref r) else Ok None
    | _ => Ok None
    end.

Definition site_driver_find_element (w : world) (xpath : string) : result elem :=
  alive w
    (if String.eqb xpath NEXT_XPATH then
       match p_next (current w) with
       | NoLink => Raise NoSuchElementException
       | Link | BrokenLink _ => Ok NextLink
       end
     else Raise NoSuchElementException).

Definition site_driver_find_elements (w : world) (xpath : string) : result (list elem) :=
  alive w
    (if String.eqb xpath GRID_XPATH then Ok (map Grid (p_grids (current w))) else Ok []).

Definition site_click (w : world) (el : elem) : result unit * world :=
  if session_alive w then
    match el, p_next (current w), following w with
    | NextLink, Link, p :: rest =>
        (Ok tt, {| session_alive := true; current := p; following := rest;
                   clock := clock w |})
    | NextLink, BrokenLink e, _ => (Raise e, w)
    | _, _, _ => (Ok tt, w)
    end
  else (Raise dead, w).

Definition site_wait_presence (w : world) (seconds : nat) (xpath : string)
  : result unit * world :=
  if session_alive w then
    if p_loads (current w) then (Ok tt, w) else (Raise TimeoutException, w)
  else (Raise dead, w).

Definition site_execute_script (w : world) (script : string) : result unit * world :=
  if session_alive w then (Ok tt, w) else (Raise dead, w).

#[export] Instance site_driver : WebDriver world elem := {
  driver_find_element := site_driver_find_element;
  driver_find_elements := site_driver_find_elements;
  find_element := site_find_element;
  find_elements := site_find_elements;
  text := site_text;
  get_attribute := site_get_attribute;
  current_url := fun w => alive w (Ok (p_url (current w)));
  click := site_click;
  wait_presence := site_wait_presence;
  execute_script := site_execute_script;
  sleep := fun _ w => w;
  now := clock
}.

(** *** Sample pages *)

Definition row_full : file_row :=
  {| r_fileref := Some "/sites/docs/a.pdf"; r_filename := Some "a.pdf";
     r_entity := Some "Fiji"; r_language := Some "English";
     r_date := Some "01/02/2021" |}.

(** A row with none of its four text regions. *)
Definition row_bare : file_row :=
  {| r_fileref := Some "/sites/docs/b.pdf"; r_filename := None; r_entity := None;
     r_language := None; r_date := None |}.

Definition row_no_fileref : file_row :=
  {| r_fileref := None; r_filename := Some "c.pdf"; r_entity := None;
     r_language := None; r_date := None |}.

Definition sec (entitytype : string) (rows : list file_row) : section :=
  {| s_entitytype := Some entitytype; s_rows := rows |}.

Definition grid_of (title : string) (sections : list section) : grid :=
  {| g_issue := Some "Adaptation"; g_deadline := None; g_title := Some title;
     g_mandate := None; g_sections := sections |}.

Definition page_of (grids : list grid) (next : next_link) : page :=
  {| p_url := SUBMISSIONS_URL; p_grids := grids; p_next := next; p_loads := true |}.

Definition world_of (p : page) (rest : list page) : world :=
  {| session_alive := true; current := p; following := rest;
     clock := "03-11-2026 10:00:00" |}.

(** One record with [Party] (one file) and [NGO] (no file), and a group of
    a category outside the list; no next page. *)
Definition single_page : world :=
  world_of
    (page_of [grid_of "Call 1" [sec "Party" [row_bare]; sec "NGO" [];
                                sec "Internal" [row_full; row_full; row_full]]]
       NoLink)
    [].

(** Two pages, two records then one. *)
Definition two_pages : world :=
  world_of
    (page_of [grid_of "p1r1" [sec "Party" [row_full]]; grid_of "p1r2" []] Link)
    [page_of [grid_of "p2r1" [sec "UN" [row_full; row_bare]]] NoLink].

(** A next-page link is there, and clicking it fails. *)
Definition blocked_link : world :=
  world_of
    (page_of [grid_of "p1r1" [sec "Party" [row_full]]]
       (BrokenLink (WebDriverException "element click intercepted")))
    [page_of [grid_of "p2r1" []] NoLink].

(** The next page never shows its panel. *)
Definition slow_second_page : world :=
  world_of
    (page_of [grid_of "p1r1" []] Link)
    [{| p_url := SUBMISSIONS_URL; p_grids := []; p_next := NoLink; p_loads := false |}].

(** A record with two groups of the same category: the first without file
    rows, the second with one. *)
Definition repeated_category : world :=
  world_of (page_of [grid_of "Call 1" [sec "Party" []; sec "Party" [row_full]]] NoLink) [].

(** The scraper run on the sample sites. *)
Definition records_of (w : world) : list value :=
  match _parse_submissions w with
  | Ok records => records
  | Raise _ => []
  end.

Definition aggregate_of (w : world) : dict :=
  match parse_submissions 5 w with
  | Some (Ok result_dict, _) => result_dict
  | _ => []
  end.

Definition single_page_records : list value := Eval vm_compute in records_of single_page.

Definition single_page_aggregate : dict := Eval vm_compute in aggregate_of single_page.

Definition two_pages_aggregate : dict := Eval vm_compute in aggregate_of two_pages.

(** The world the crawl of [two_pages] ends in: its second page. *)
Definition two_pages_end : world :=
  world_of (page_of [grid_of "p2r1" [sec "UN" [row_full; row_bare]]] NoLink) [].

(** The row of the flat export of [single_page]. *)
Definition single_page_row : dict :=
  Eval vm_compute in
    match container (write_to_csv single_page_aggregate) with
    | Ok (row :: _) => row
    | _ => []
    end.

(** The sub-item built from [row_bare]. *)
Definition bare_item : value :=
  Eval vm_compute in
    submission_item None None None None (replace SUBMISSIONS_URL HOME_PATH "/sites/docs/b.pdf").

End StaticSite.

(** ** Proof automation *)

(** Split a successful sequence [x <- m ;; k] into its two steps. *)
Ltac bind_ok H :=
  repeat match type of H with
         | bind ?m _ = Ok _ =>
             let a := fresh "a" in
             let E := fresh "E" in
             destruct m as [a|?] eqn:E; simpl in H; [|discriminate H]
         end.

(** ** The session from launch to close, and [main]

    The calls of [deploy_firefox], [visit_main_page] and [kill_webdriver]
    that the scraping functions do not use, as a second interface over the same
    world. *)
Class Runtime (world elem : Type) : Type := {
  (** [os.devnull] *)
  devnull : string;
  (** [webdriver.Firefox(executable_path=..., options=..., service_log_path=...)]:
      the path, the arguments added to the options, the log path *)
  webdriver_Firefox : world -> option string -> list string -> string -> result unit * world;
  (** [driver.get(url)] *)
  driver_get : world -> string -> result unit * world;
  (** [WebDriverWait(driver, seconds).until(EC.element_to_be_clickable((By.XPATH, xpath)))] *)
  wait_clickable : world -> nat -> string -> result elem * world;
  (** [driver.close()] *)
  driver_close : world -> result unit * world;
  (** [driver.quit()] *)
  driver_quit : world -> result unit * world
}.

Definition HEADLESS : bool := false.

Definition PANEL_XPATH : string := "//h4[@class = 'panel-title']/a[@class = 'collapsed']".

(** A step that may change the world and may raise; a raise keeps the world
    reached so far and skips what follows. *)
Definition step (world A : Type) : Type := world -> result A * world.

Definition and_then {world A B : Type} (m : step world A) (k : A -> step world B)
  : step world B :=
  fun w =>
    match m w with
    | (Ok a, w1) => k a w1
    | (Raise e, w1) => (Raise e, w1)
    end.

Notation "x <~ m ;; k" := (and_then m (fun x => k))
  (at level 61, m at next level, right associativity) : py_scope.

(** The file system, as the code uses it.  Like the browser it is outside
    the program: every call that writes can raise (an [OSError] such as
    [PermissionError], [FileExistsError] or [IsADirectoryError], or whatever
    else the writer raises), given here by its message, and leaves the disk in
    a state of its own. *)
Class FileSystem (disk : Type) : Type := {
  (** [os.path.join(directory, name)] *)
  path_join : string -> string -> string;
  (** [os.path.isdir(path)] *)
  isdir : disk -> string -> bool;
  (** [os.mkdir(path)] *)
  mkdir : disk -> string -> option string * disk;
  (** [with open(path, "w") as f: json.dump(document, f, indent=4)] *)
  dump_json : disk -> string -> value -> option string * disk;
  (** [pd.DataFrame(container).to_csv(path)] *)
  to_csv : disk -> string -> list dict -> option string * disk
}.

(** What can leave [main]: an exception of the scraping code or of the row
    loop, or the exception of a file call. *)
Inductive raised : Type :=
| Python (e : exn)
| FileError (strerror : string).

(** How [main] ends. *)
Inductive ending : Type :=
| Completed
| Raised (r : raised).

Section Main.

Context {world elem disk : Type} {driver : WebDriver world elem}
  {runtime : Runtime world elem} {files : FileSystem disk}.

(** *** [deploy_firefox]: the options get [-headless] when asked for; the
    keyword arguments passed through to the constructor are left out. *)
Definition deploy_firefox (path_to_geckodriver : option string) (headless : bool)
  : step world unit :=
  fun w =>
    let firefox_ops := if headless then ["-headless"] else [] in
    webdriver_Firefox w path_to_geckodriver firefox_ops devnull.

(** *** [kill_webdriver] *)
Definition kill_webdriver : step world unit :=
  _ <~ driver_close ;;
  driver_quit.

(** *** [visit_main_page] *)
Definition visit_main_page : step world unit :=
  _ <~ (fun w => driver_get w SUBMISSIONS_URL) ;;
  _ <~ (fun w => (Ok tt, sleep 3 w)) ;;
  element <~ (fun w => wait_clickable w 20 PANEL_XPATH) ;;
  _ <~ (fun w => click w element) ;;
  (fun w => wait_presence w 20 AREA_XPATH).

(** The part of [main] before the files: launch, open the page, scrape. *)
Definition scrape (fuel : nat) (path_to_geckodriver : option string) (headless : bool)
  (w : world) : option (result dict * world) :=
  match (_ <~ deploy_firefox path_to_geckodriver headless ;; visit_main_page) w with
  | (Raise e, w1) => Some (Raise e, w1)
  | (Ok _, w1) => parse_submissions fuel w1
  end.

(** *** The exporters with their files *)

(** [write_to_json(submissions_data, data_dir)]. *)
Definition write_to_json_file (submissions_data : dict) (data_dir : string) (d : disk)
  : option raised * disk * dict :=
  let (document, submissions_data) := write_to_json submissions_data in
  match dump_json d (path_join data_dir "submissions_data.json") document with
  | (Some strerror, d') => (Some (FileError strerror), d', submissions_data)
  | (None, d') => (None, d', submissions_data)
  end.

(** [write_to_csv(submissions_data, data_dir)]: the file is written only when
    the row loop did not raise. *)
Definition write_to_csv_file (submissions_data : dict) (data_dir : string) (d : disk)
  : option raised * disk * dict :=
  let run := write_to_csv submissions_data in
  match container run with
  | Raise e => (Some (Python e), d, aggregate_after run)
  | Ok rows =>
      match to_csv d (path_join data_dir "submissions_data.csv") rows with
      | (Some strerror, d') => (Some (FileError strerror), d', aggregate_after run)
      | (None, d') => (None, d', aggregate_after run)
      end
  end.

(** [if not os.path.isdir("data"): os.mkdir("data")]. *)
Definition ensure_data_dir (d : disk) : option string * disk :=
  if isdir d "data" then (None, d) else mkdir d "data".

(** *** [main] *)
Definition main (fuel : nat) (path_to_geckodriver : option string) (headless : bool)
  (w : world) (d : disk) : option (ending * world * disk) :=
  match deploy_firefox path_to_geckodriver headless w with
  | (Raise e, w1) => Some (Raised (Python e), w1, d)
  | (Ok _, w1) =>
      match visit_main_page w1 with
      | (Raise e, w2) => Some (Raised (Python e), w2, d)
      | (Ok _, w2) =>
          match parse_submissions fuel w2 with
          | None => None
          | Some (Raise e, w3) => Some (Raised (Python e), w3, d)
          | Some (Ok submissions_data, w3) =>
              match ensure_data_dir d with
              | (Some strerror, d1) => Some (Raised (FileError strerror), w3, d1)
              | (None, d1) =>
                  match write_to_json_file submissions_data "data" d1 with
                  | (Some r, d2, _) => Some (Raised r, w3, d2)
                  | (None, d2, submissions_data) =>
                      match write_to_csv_file submissions_data "data" d2 with
                      | (Some r, d3, _) => Some (Raised r, w3, d3)
                      | (None, d3, _) =>
                          match kill_webdriver w3 with
                          | (Raise e, w4) => Some (Raised (Python e), w4, d3)
                          | (Ok _, w4) => Some (Completed, w4, d3)
                          end
                      end
                  end
              end
          end
      end
  end.

(** The disk once [data] is known to be a directory: as it was, or as
    [os.mkdir] left it. *)
Definition data_dir_ready (d d1 : disk) : Prop :=
  (isdir d "data" = true /\ d1 = d) \/
  (isdir d "data" = false /\ mkdir d "data" = (None, d1)).

(** *** More vocabulary of the statements *)



End Main.

(** The columns of a row of the flat export, in the order of the dict. *)
Definition CSV_COLUMNS : list string :=
  [ "submission_name"; "submission_entity"; "submission_language"; "submission_date";
    "submission_url"; "entity_type"; "issue"; "deadline"; "title"; "mandate";
    "data_source"; "collected_at" ].

(** The flat export as a projection that changes nothing: the rows of one
    sub-item list, of one record, of a record list. *)
Definition rows_of_items (category : string) (issue : dict) (items : value) : list dict :=
  match items with
  | VList items =>
      flat_map (fun item => match item with
                            | VDict fields =>
                                [Dict.merge (Dict.set "entity_type" (VStr category) fields)
                                   issue]
                            | _ => []
                            end) items
  | _ => []
  end.

Definition rows_of_record (submissions_data : dict) (record : value) : list dict :=
  match record with
  | VDict fields =>
      match Dict.get "submissions" fields with
      | Some (VDict categories) =>
          let issue := Dict.remove "submissions" (Dict.merge fields submissions_data) in
          flat_map (fun entry => rows_of_items (fst entry) issue (snd entry)) categories
      | _ => []
      end
  | _ => []
  end.

(** A sub-item and a record exactly as the parser writes them. *)
Definition parsed_item (item : value) : Prop :=
  exists name entity language date sub_url,
    item = submission_item name entity language date sub_url.

Definition parsed_record (record : value) : Prop :=
  exists issue deadline title mandate categories,
    record = submission_record issue deadline title mandate categories /\
    Forall (fun entry => In (fst entry) RELEVANT_ENTITY_TYPES /\
                         exists items, snd entry = VList items /\ Forall parsed_item items)
      categories.

(** A row of the flat export of a scraped aggregate: the twelve columns, an
    allowed category, a URL that is a string, and the metadata of the run. *)
Definition scraped_row (collected_at : string) (row : dict) : Prop :=
  Dict.keys row = CSV_COLUMNS /\
  (exists category,
      Dict.get "entity_type" row = Some (VStr category) /\
      In category RELEVANT_ENTITY_TYPES) /\
  (exists sub_url, Dict.get "submission_url" row = Some (VStr sub_url)) /\
  Dict.get "data_source" row = Some (VStr SUBMISSIONS_URL) /\
  Dict.get "collected_at" row = Some (VStr collected_at).

(** A page whose regions can be found and cannot be read: the lookup
    returns the region, and reading its text raises
    [NoSuchElementException] (the browser no longer knows the element). *)
Module Vanishing.

Inductive elem : Type :=
| Cell
| Title.

#[global] Instance vanishing_driver : WebDriver unit elem := {
  driver_find_element := fun _ _ => Raise NoSuchElementException;
  driver_find_elements := fun _ _ => Ok [Cell];
  find_element := fun _ _ _ => Ok Title;
  find_elements := fun _ _ _ => Ok [];
  text := fun _ _ => Raise NoSuchElementException;
  get_attribute := fun _ _ _ => Ok None;
  current_url := fun _ => Ok SUBMISSIONS_URL;
  click := fun w _ => (Ok tt, w);
  wait_presence := fun w _ _ => (Ok tt, w);
  execute_script := fun w _ => (Ok tt, w);
  sleep := fun _ w => w;
  now := fun _ => EmptyString
}.

End Vanishing.

(** More sample sites, and the static site as a [Runtime]. *)
Module MoreSites.

Import StaticSite.

(** A next-page link that works and leads back to the same page. *)
Definition endless : world := world_of (page_of [grid_of "again" []] Link) [].

(** A row without [fileref] in an allowed group, after a good row. *)
Definition missing_fileref : world :=
  world_of (page_of [grid_of "Call 1" [sec "Party" [row_full; row_no_fileref]]] NoLink) [].


(** The listing served from another address. *)
Definition moved_site : world :=
  {| session_alive := true;
     current := {| p_url := "https://unfccc.int/submissions";
                   p_grids := [grid_of "Call 1" [sec "Party" [row_full]]];
                   p_next := NoLink; p_loads := true |};
     following := []; clock := "03-11-2026 10:00:00" |}.

#[export] Instance site_runtime : Runtime world elem := {
  devnull := "/dev/null";
  webdriver_Firefox := fun w _ _ _ =>
    (Ok tt, {| session_alive := true; current := current w; following := following w;
               clock := clock w |});
  driver_get := fun w _ => site_execute_script w EmptyString;
  wait_clickable := fun w _ _ =>
    if session_alive w then (Ok (Region "panel"), w) else (Raise dead, w);
  driver_close := fun w => site_execute_script w EmptyString;
  driver_quit := fun w =>
    (Ok tt, {| session_alive := false; current := current w; following := following w;
               clock := clock w |})
}.

(** A disk that holds the path [data] and the two output files, with a
    place where a directory stands in the way of the CSV file. *)
Inductive sample_disk : Type :=
| NoData
| DataIsFile
| DataDir (json : option value) (csv : option (list dict)) (csv_path_is_directory : bool).

Definition sample_mkdir (d : sample_disk) (path : string) : option string * sample_disk :=
  match d with
  | NoData =>
      if String.eqb path "data" then (None, DataDir None None false)
      else (Some "No such file or directory", d)
  | _ => (Some "File exists", d)
  end.

Definition sample_dump_json (d : sample_disk) (path : string) (document : value)
  : option string * sample_disk :=
  match d with
  | DataDir _ csv blocked =>
      if String.eqb path "data/submissions_data.json"
      then (None, DataDir (Some document) csv blocked)
      else (Some "Permission denied", d)
  | _ => (Some "No such file or directory", d)
  end.

Definition sample_to_csv (d : sample_disk) (path : string) (rows : list dict)
  : option string * sample_disk :=
  match d with
  | DataDir json _ false =>
      if String.eqb path "data/submissions_data.csv"
      then (None, DataDir json (Some rows) false)
      else (Some "Permission denied", d)
  | DataDir _ _ true => (Some "Is a directory", d)
  | _ => (Some "No such file or directory", d)
  end.

#[export] Instance sample_files : FileSystem sample_disk := {
  path_join := fun directory name => (directory ++ "/" ++ name)%string;
  isdir := fun d path =>
    match d with
    | DataDir _ _ _ => String.eqb path "data"
    | _ => false
    end;
  mkdir := sample_mkdir;
  dump_json := sample_dump_json;
  to_csv := sample_to_csv
}.

(** The runs of the scraper on these sites. *)
Definition moved_records : list value := Eval vm_compute in records_of moved_site.


Definition two_pages_rows : list dict :=
  Eval vm_compute in
    match container (write_to_csv two_pages_aggregate) with
    | Ok rows => rows
    | Raise _ => []
    end.

(** The world [main] leaves after the crawl of [two_pages]: the session is
    over. *)
Definition two_pages_closed : world :=
  {| session_alive := false; current := current two_pages_end; following := [];
     clock := clock two_pages_end |}.

End MoreSites.
(** ** [str.replace] on sample strings *)

Example replace_home :
  replace SUBMISSIONS_URL HOME_PATH "/sites/docs/a b.pdf"
  = "https://www4.unfccc.int/sites/docs/a b.pdf".
Proof. reflexivity. Qed.

Example replace_all_occurrences : replace "aXbXXc" "X" "--" = "a--b----c".
Proof. reflexivity. Qed.

Example replace_no_overlap : replace "aaaa" "aa" "b" = "bb".
Proof. reflexivity. Qed.

Example replace_empty_old : replace "abc" "" "-" = "-a-b-c-".
Proof. reflexivity. Qed.

(** ** Facts about dicts and loops *)

Module DictFacts.

Lemma get_set_same (k : string) (v : value) (d : dict) :
  Dict.get k (Dict.set k v d) = Some v.
Proof.
  induction d as [|[k' v'] rest IH]; simpl.
  - now rewrite String.eqb_refl.
  - destruct (String.eqb k k') eqn:E; simpl; rewrite E; auto.
Qed.

Lemma get_set_other (k k' : string) (v : value) (d : dict) :
  k <> k' -> Dict.get k' (Dict.set k v d) = Dict.get k' d.
Proof.
  intros Hne. induction d as [|[k0 v0] rest IH]; simpl.
  - destruct (String.eqb k' k) eqn:E; auto.
    apply String.eqb_eq in E. congruence.
  - destruct (String.eqb k k0) eqn:E; simpl.
    + apply String.eqb_eq in E. subst k0.
      destruct (String.eqb k' k) eqn:E'; auto.
      apply String.eqb_eq in E'. congruence.
    + now rewrite IH.
Qed.

(** Setting a key changes one entry or adds one: every entry of the result
    is the new one or an old one. *)
Lemma in_set (k : string) (v : value) (d : dict) (kv : string * value) :
  In kv (Dict.set k v d) -> kv = (k, v) \/ In kv d.
Proof.
  induction d as [|[k' v'] rest IH]; simpl.
  - intros [H|[]]; auto.
  - destruct (String.eqb k k') eqn:E; simpl.
    + apply String.eqb_eq in E. subst k'. intros [H|H]; auto.
    + intros [H|H]; auto. destruct (IH H); auto.
Qed.

Lemma mem_set_same (k : string) (v : value) (d : dict) :
  Dict.mem k (Dict.set k v d) = true.
Proof. unfold Dict.mem. now rewrite get_set_same. Qed.

Lemma mem_set_keeps (k k' : string) (v : value) (d : dict) :
  Dict.mem k' d = true -> Dict.mem k' (Dict.set k v d) = true.
Proof.
  unfold Dict.mem. intros H.
  destruct (String.eqb k k') eqn:E.
  - apply String.eqb_eq in E. subst. now rewrite get_set_same.
  - apply String.eqb_neq in E. now rewrite get_set_other.
Qed.

Lemma get_remove_same (k : string) (d : dict) : Dict.get k (Dict.remove k d) = None.
Proof.
  induction d as [|[k' v'] rest IH]; simpl; auto.
  destruct (String.eqb k k') eqn:E; simpl; auto. now rewrite E.
Qed.

Lemma pop_remove_same (k : string) (d : dict) : Dict.pop k (Dict.remove k d) = None.
Proof. unfold Dict.pop. now rewrite get_remove_same. Qed.

(** Setting a key again to the same value changes nothing. *)
Lemma set_set_same (k : string) (v : value) (d : dict) :
  Dict.set k v (Dict.set k v d) = Dict.set k v d.
Proof.
  induction d as [|[k' v'] rest IH]; simpl.
  - now rewrite String.eqb_refl.
  - destruct (String.eqb k k') eqn:E; simpl; rewrite E; auto.
    now rewrite IH.
Qed.

Lemma get_remove_other (k k' : string) (d : dict) :
  k <> k' -> Dict.get k' (Dict.remove k d) = Dict.get k' d.
Proof.
  intros Hne. induction d as [|[k0 v0] rest IH]; simpl; auto.
  destruct (String.eqb k k0) eqn:E; simpl.
  - apply String.eqb_eq in E. subst k0.
    destruct (String.eqb k' k) eqn:E'; auto.
    apply String.eqb_eq in E'. congruence.
  - now rewrite IH.
Qed.

Lemma remove_absent (k : string) (d : dict) : Dict.get k d = None -> Dict.remove k d = d.
Proof.
  induction d as [|[k' v'] rest IH]; simpl; auto.
  destruct (String.eqb k k') eqn:E; [discriminate|].
  simpl. intros H. now rewrite IH.
Qed.

Lemma remove_set_same (k : string) (v : value) (d : dict) :
  Dict.remove k (Dict.set k v d) = Dict.remove k d.
Proof.
  induction d as [|[k' v'] rest IH]; simpl.
  - now rewrite String.eqb_refl.
  - destruct (String.eqb k k') eqn:E; simpl; rewrite E; simpl; auto.
    now rewrite IH.
Qed.

Lemma remove_set_other (k k' : string) (v : value) (d : dict) :
  k <> k' -> Dict.remove k (Dict.set k' v d) = Dict.set k' v (Dict.remove k d).
Proof.
  intros Hne. assert (Hkk : String.eqb k k' = false) by now apply String.eqb_neq.
  induction d as [|[k0 v0] rest IH]; simpl.
  - now rewrite Hkk.
  - destruct (String.eqb k' k0) eqn:E; simpl.
    + apply String.eqb_eq in E. subst k0. rewrite Hkk. simpl.
      now rewrite String.eqb_refl.
    + destruct (String.eqb k k0) eqn:E0; simpl; auto.
      now rewrite E, IH.
Qed.

Lemma get_merge_other (k : string) (a b : dict) :
  Dict.get k b = None -> Dict.get k (Dict.merge a b) = Dict.get k a.
Proof.
  unfold Dict.merge. revert a. induction b as [|[k' v'] rest IH]; simpl; auto.
  intros a. destruct (String.eqb k k') eqn:E; [discriminate|].
  intros H. rewrite IH by assumption.
  apply get_set_other. intros ->. now rewrite String.eqb_refl in E.
Qed.

Lemma remove_merge (k : string) (a b : dict) :
  Dict.get k b = None ->
  Dict.remove k (Dict.merge a b) = Dict.merge (Dict.remove k a) b.
Proof.
  unfold Dict.merge. revert a. induction b as [|[k' v'] rest IH]; simpl; auto.
  intros a. destruct (String.eqb k k') eqn:E; [discriminate|].
  intros H. rewrite IH by assumption. simpl.
  rewrite remove_set_other; auto.
  intros ->. now rewrite String.eqb_refl in E.
Qed.

End DictFacts.

(** A property kept by every round of a [for] loop holds when the loop ends
    without raising. *)
Lemma for_each_invariant {A S : Type} (Inv : S -> Prop) (body : S -> A -> result S)
  (xs : list A) :
  (forall acc x acc', In x xs -> Inv acc -> body acc x = Ok acc' -> Inv acc') ->
  forall acc acc', Inv acc -> for_each body xs acc = Ok acc' -> Inv acc'.
Proof.
  induction xs as [|x rest IH]; simpl; intros Hbody acc acc' Hacc Hrun.
  - now inversion Hrun; subst.
  - destruct (body acc x) as [acc1|e] eqn:E; simpl in Hrun; [|discriminate].
    apply (IH (fun a y a' Hy => Hbody a y a' (or_intror Hy)) acc1 acc'); auto.
    apply (Hbody acc x acc1); auto.
Qed.


Lemma for_each_app {A S : Type} (body : S -> A -> result S) (xs ys : list A)
  (acc out : S) :
  for_each body (xs ++ ys) acc = Ok out ->
  exists mid, for_each body xs acc = Ok mid /\ for_each body ys mid = Ok out.
Proof.
  revert acc. induction xs as [|x rest IH]; simpl; intros acc Hrun.
  - now exists acc.
  - destruct (body acc x) as [acc1|e]; simpl in *; [|discriminate].
    now apply IH.
Qed.

Lemma get_in (k : string) (v : value) (d : dict) : Dict.get k d = Some v -> In (k, v) d.
Proof.
  induction d as [|[k' v'] rest IH]; simpl; [discriminate|].
  destruct (String.eqb k k') eqn:E.
  - apply String.eqb_eq in E. subst k'. intros H. inversion H. now left.
  - intros H. right. now apply IH.
Qed.

Lemma Forall_set (P : string * value -> Prop) (k : string) (v : value) (d : dict) :
  Forall P d -> P (k, v) -> Forall P (Dict.set k v d).
Proof.
  intros Hd Hkv. apply Forall_forall. intros kv Hin.
  destruct (DictFacts.in_set _ _ _ _ Hin) as [->|Hold]; auto.
  now apply (proj1 (Forall_forall P d) Hd).
Qed.

Lemma relevant_in (category : string) :
  relevant (Some category) = true <-> In category RELEVANT_ENTITY_TYPES.
Proof.
  unfold relevant. rewrite existsb_exists. split.
  - intros [x [Hin Heq]]. apply String.eqb_eq in Heq. now subst.
  - intros Hin. exists category. split; auto. apply String.eqb_refl.
Qed.

Lemma Forall2_in_right {A B : Type} (R : A -> B -> Prop) (xs : list A) (ys : list B)
  (y : B) :
  Forall2 R xs ys -> In y ys -> exists x, In x xs /\ R x y.
Proof.
  induction 1 as [|x0 y0 xs ys Hxy HF IH]; simpl; [intros []|].
  intros [<-|Hin].
  - exists x0. auto.
  - destruct (IH Hin) as [x [Hx HR]]. exists x. auto.
Qed.

Lemma Forall2_in_left {A B : Type} (R : A -> B -> Prop) (xs : list A) (ys : list B)
  (x : A) :
  Forall2 R xs ys -> In x xs -> exists y, In y ys /\ R x y.
Proof.
  induction 1 as [|x0 y0 xs ys Hxy HF IH]; simpl; [intros []|].
  intros [<-|Hin].
  - exists y0. auto.
  - destruct (IH Hin) as [y [Hy HR]]. exists y. auto.
Qed.

Lemma submission_record_fields (issue deadline title mandate : option string)
  (submissions : dict) :
  submission_record issue deadline title mandate submissions
  = VDict [ ("issue", of_option issue); ("deadline", of_option deadline);
            ("title", of_option title); ("mandate", of_option mandate);
            ("submissions", VDict submissions) ].
Proof. reflexivity. Qed.

(** ** The record parser *)

Section ParserFacts.

Context {world elem : Type} {driver : WebDriver world elem}.

Lemma append_to_ok (category : string) (item : value) (submissions out : dict) :
  append_to category item submissions = Ok out ->
  exists items,
    Dict.get category submissions = Some (VList items) /\
    out = Dict.set category (VList (items ++ [item])) submissions.
Proof.
  unfold append_to.
  destruct (Dict.get category submissions) as [[| |items|]|]; try discriminate.
  intros H. inversion H. now exists items.
Qed.

(** A successful round of the row loop appends the item built from the row
    to the list of the current category. *)
Lemma parse_row_ok (w : world) (category : string) (submissions out : dict) (row : elem) :
  parse_row w category submissions row = Ok out ->
  exists item items,
    item_of_row w row item /\
    Dict.get category submissions = Some (VList items) /\
    out = Dict.set category (VList (items ++ [item])) submissions.
Proof.
  unfold parse_row. intros H. bind_ok H.
  destruct a0 as [ref|]; simpl in E1; [|discriminate].
  inversion E1; subst a1.
  destruct (append_to_ok _ _ _ _ H) as [items [Hget Hout]].
  exists (submission_item a2 a3 a4 a5 (replace a HOME_PATH ref)), items.
  split; [|now split].
  exists a, ref, a2, a3, a4, a5. repeat split; auto.
Qed.

Lemma parse_row_get_other (w : world) (category k : string) (submissions out : dict)
  (row : elem) :
  parse_row w category submissions row = Ok out ->
  category <> k -> Dict.get k out = Dict.get k submissions.
Proof.
  intros H Hne. destruct (parse_row_ok _ _ _ _ _ H) as [item [items [_ [_ ->]]]].
  now apply DictFacts.get_set_other.
Qed.

Lemma parse_row_get_same (w : world) (category : string) (submissions out : dict)
  (row : elem) :
  parse_row w category submissions row = Ok out ->
  exists items, Dict.get category out = Some (VList items).
Proof.
  intros H. destruct (parse_row_ok _ _ _ _ _ H) as [item [items [_ [_ ->]]]].
  exists (items ++ [item]). apply DictFacts.get_set_same.
Qed.

(** What a round of the section loop can be: nothing for a category outside
    the list, otherwise a reset of the category's list followed by the row
    loop. *)
Lemma parse_section_ok (w : world) (submissions out : dict) (section : elem) :
  parse_section w submissions section = Ok out ->
  exists entity_type,
    get_attribute w section "entitytype" = Ok entity_type /\
    ((relevant entity_type = false /\ out = submissions) \/
     (exists category rows,
        entity_type = Some category /\ In category RELEVANT_ENTITY_TYPES /\
        find_elements w section ROW_XPATH = Ok rows /\
        for_each (parse_row w category) rows (Dict.set category (VList []) submissions)
        = Ok out)).
Proof.
  unfold parse_section. intros H. bind_ok H. exists a. split; auto.
  destruct a as [category|]; [|left; split; auto; now inversion H].
  destruct (relevant (Some category)) eqn:Hrel; [|left; split; auto; now inversion H].
  right. bind_ok H. exists category, a. repeat split; auto.
  - now apply relevant_in.
  - destruct a; auto.
Qed.

Lemma parse_section_skip (w : world) (submissions : dict) (section : elem)
  (entity_type : option string) :
  get_attribute w section "entitytype" = Ok entity_type ->
  relevant entity_type = false ->
  parse_section w submissions section = Ok submissions.
Proof.
  unfold parse_section. intros -> Hrel. cbn [bind].
  destruct entity_type; auto. now rewrite Hrel.
Qed.

Lemma parse_section_empty (w : world) (submissions : dict) (section : elem)
  (category : string) :
  get_attribute w section "entitytype" = Ok (Some category) ->
  In category RELEVANT_ENTITY_TYPES ->
  find_elements w section ROW_XPATH = Ok [] ->
  parse_section w submissions section = Ok (Dict.set category (VList []) submissions).
Proof.
  unfold parse_section. intros -> Hin Hrows. cbn [bind].
  apply relevant_in in Hin. rewrite Hin, Hrows. reflexivity.
Qed.

(** A group leaves the entries of other categories alone. *)
Lemma parse_section_get_other (w : world) (submissions out : dict) (section : elem)
  (k : string) :
  parse_section w submissions section = Ok out ->
  get_attribute w section "entitytype" <> Ok (Some k) ->
  Dict.get k out = Dict.get k submissions.
Proof.
  intros H Hne.
  destruct (parse_section_ok _ _ _ _ H) as [et [Hattr [[_ ->]|Hrun]]]; auto.
  destruct Hrun as [category [rows [-> [_ [_ Hrun]]]]].
  assert (Hk : category <> k) by (intros ->; now apply Hne).
  rewrite <- (DictFacts.get_set_other category k (VList []) submissions Hk).
  apply (for_each_invariant
           (fun acc => Dict.get k acc = Dict.get k (Dict.set category (VList []) submissions))
           (parse_row w category) rows) with (acc := Dict.set category (VList []) submissions);
    auto.
  intros acc row acc' _ Hacc Hrow. rewrite <- Hacc.
  now apply (parse_row_get_other w category k acc acc' row).
Qed.

(** No group removes a key. *)
Lemma parse_section_mem_keeps (w : world) (submissions out : dict) (section : elem)
  (k : string) :
  parse_section w submissions section = Ok out ->
  Dict.mem k submissions = true -> Dict.mem k out = true.
Proof.
  intros H Hmem.
  destruct (parse_section_ok _ _ _ _ H) as [et [Hattr [[_ ->]|Hrun]]]; auto.
  destruct Hrun as [category [rows [-> [_ [_ Hrun]]]]].
  apply (for_each_invariant (fun acc => Dict.mem k acc = true)
           (parse_row w category) rows) with (acc := Dict.set category (VList []) submissions);
    auto.
  - intros acc row acc' _ Hacc Hrow.
    destruct (parse_row_ok _ _ _ _ _ Hrow) as [item [items [_ [_ ->]]]].
    now apply DictFacts.mem_set_keeps.
  - now apply DictFacts.mem_set_keeps.
Qed.

(** The section loop keeps every entry of the mapping an allowed category
    bound to sub-items built from rows of that category. *)
Lemma parse_section_categories (w : world) (grid : elem) (sections : list elem)
  (submissions out : dict) (section : elem) :
  find_elements w grid SECTION_XPATH = Ok sections ->
  In section sections ->
  Forall (category_of_grid w grid) submissions ->
  parse_section w submissions section = Ok out ->
  Forall (category_of_grid w grid) out.
Proof.
  intros Hsections Hin Hinv H.
  destruct (parse_section_ok _ _ _ _ H) as [et [Hattr [[_ ->]|Hrun]]]; auto.
  destruct Hrun as [category [rows [-> [Hrel [Hrows Hrun]]]]].
  apply (for_each_invariant (Forall (category_of_grid w grid))
           (parse_row w category) rows) with (acc := Dict.set category (VList []) submissions);
    auto.
  - intros acc row acc' Hrow Hacc Hstep.
    destruct (parse_row_ok _ _ _ _ _ Hstep) as [item [items [Hitem [Hget ->]]]].
    apply Forall_set; auto.
    split; auto. exists (items ++ [item]). split; auto.
    apply Forall_app. split.
    + apply get_in in Hget.
      destruct (proj1 (Forall_forall _ _) Hacc _ Hget) as [_ [items' [Heq Hall]]].
      simpl in Heq. inversion Heq. now subst.
    + constructor; auto. exists row. split; auto.
      now exists sections, section, rows.
  - apply Forall_set; auto. split; auto. exists []. now split.
Qed.

Lemma parse_grid_ok (w : world) (grid : elem) (record : value) :
  parse_grid w grid = Ok record ->
  exists issue deadline title mandate sections submissions,
    find_text_element w grid ISSUE_XPATH = Ok issue /\
    find_text_element w grid DEADLINE_XPATH = Ok deadline /\
    find_text_element w grid TITLE_XPATH = Ok title /\
    find_text_element w grid MANDATE_XPATH = Ok mandate /\
    find_elements w grid SECTION_XPATH = Ok sections /\
    for_each (parse_section w) sections [] = Ok submissions /\
    record = submission_record issue deadline title mandate submissions.
Proof.
  unfold parse_grid. intros H. bind_ok H. inversion H.
  exists a, a0, a1, a2, a3, a4. repeat split; auto.
Qed.

Lemma parse_grid_record (w : world) (grid : elem) (record : value) :
  parse_grid w grid = Ok record -> record_of_grid w grid record.
Proof.
  intros H.
  destruct (parse_grid_ok _ _ _ H)
    as [issue [deadline [title [mandate [sections [submissions
         [Hi [Hd [Ht [Hm [Hs [Hrun ->]]]]]]]]]]]].
  exists issue, deadline, title, mandate, submissions. repeat split; auto.
  apply (for_each_invariant (Forall (category_of_grid w grid))
           (parse_section w) sections) with (acc := []); auto.
  intros acc section acc' Hin Hacc Hstep.
  now apply (parse_section_categories w grid sections acc acc' section).
Qed.

(** The records of a page are the records of its grid cells, in order. *)
Lemma parse_submissions_grids (w : world) (records : list value) :
  _parse_submissions w = Ok records ->
  exists grids,
    driver_find_elements w GRID_XPATH = Ok grids /\
    Forall2 (fun grid record => parse_grid w grid = Ok record) grids records.
Proof.
  unfold _parse_submissions. intros H. bind_ok H. exists a. split; auto.
  assert (Hgen : forall grids acc out,
             for_each (fun submission_list grid =>
                         sub_dict <- parse_grid w grid ;; Ok (submission_list ++ [sub_dict]))
               grids acc = Ok out ->
             exists recs, out = acc ++ recs /\
                          Forall2 (fun grid record => parse_grid w grid = Ok record) grids recs).
  { induction grids as [|g rest IH]; simpl; intros acc out Hrun.
    - inversion Hrun. exists []. split; [now rewrite app_nil_r|constructor].
    - destruct (parse_grid w g) as [r|e] eqn:Eg; simpl in Hrun; [|discriminate].
      destruct (IH _ _ Hrun) as [recs [-> HF]].
      exists (r :: recs). split; [now rewrite <- app_assoc|now constructor]. }
  destruct (Hgen _ _ _ H) as [recs [-> HF]]. exact HF.
Qed.

Lemma parse_submissions_records (w : world) (records : list value) (record : value) :
  _parse_submissions w = Ok records -> In record records ->
  exists grids grid,
    driver_find_elements w GRID_XPATH = Ok grids /\ In grid grids /\
    parse_grid w grid = Ok record.
Proof.
  intros H Hin. destruct (parse_submissions_grids _ _ H) as [grids [Hg HF]].
  destruct (Forall2_in_right _ _ _ _ HF Hin) as [grid [Hgin Hp]].
  now exists grids, grid.
Qed.

(** C8 (as amended). The field extractor returns the text of the sub-region
    exactly when the lookup and the reading of the text both succeed; it
    returns [None], and raises nothing, exactly when the lookup or the reading
    of the text raises [NoSuchElementException] (the [try] covers both); it
    raises exactly the other exceptions of the lookup or of the reading, never
    [NoSuchElementException]. *)
Theorem find_text_element_cases (w : world) (el : elem) (xpath : string) :
  (forall t,
      find_text_element w el xpath = Ok (Some t) <->
      exists found, find_element w el xpath = Ok found /\ text w found = Ok t) /\
  (find_text_element w el xpath = Ok None <->
   find_element w el xpath = Raise NoSuchElementException \/
   exists found,
     find_element w el xpath = Ok found /\
     text w found = Raise NoSuchElementException) /\
  (forall e,
      find_text_element w el xpath = Raise e <->
      e <> NoSuchElementException /\
      (find_element w el xpath = Raise e \/
       exists found, find_element w el xpath = Ok found /\ text w found = Raise e)).
Proof.
  unfold find_text_element.
  destruct (find_element w el xpath) as [found|e0] eqn:Hfind; simpl.
  - destruct (text w found) as [t0|e0] eqn:Htext.
    + split; [|split].
      * intros t. split.
        -- intros H. inversion H; subst. now exists found.
        -- intros [found' [Hf Ht]]. inversion Hf; subst found'.
           rewrite Htext in Ht. now inversion Ht.
      * split; [discriminate|].
        intros [H|[found' [Hf Ht]]]; [discriminate|].
        inversion Hf; subst found'. rewrite Htext in Ht. discriminate.
      * intros e. split; [discriminate|].
        intros [_ [H|[found' [Hf Ht]]]]; [discriminate|].
        inversion Hf; subst found'. rewrite Htext in Ht. discriminate.
    + split; [|split].
      * intros t. split.
        -- destruct e0; discriminate.
        -- intros [found' [Hf Ht]]. inversion Hf; subst found'.
           rewrite Htext in Ht. discriminate.
      * split.
        -- intros H. right. exists found. split; auto.
           destruct e0; try discriminate. exact Htext.
        -- intros [H|[found' [Hf Ht]]]; [discriminate|].
           inversion Hf; subst found'. rewrite Htext in Ht.
           inversion Ht; subst e0. reflexivity.
      * intros e. split.
        -- intros H. assert (He : e0 = e /\ e <> NoSuchElementException).
           { destruct e0; inversion H; subst; split; auto; discriminate. }
           destruct He as [-> Hne]. split; auto. right. now exists found.
        -- intros [Hne [H|[found' [Hf Ht]]]]; [discriminate|].
           inversion Hf; subst found'. rewrite Htext in Ht.
           inversion Ht; subst e0. destruct e; auto. now elim Hne.
  - split; [|split].
    + intros t. split.
      * destruct e0; discriminate.
      * intros [found [Hf _]]. discriminate.
    + split.
      * intros H. left. destruct e0; try discriminate. reflexivity.
      * intros [H|[found [Hf _]]]; [|discriminate].
        inversion H; subst e0. reflexivity.
    + intros e. split.
      * intros H. assert (He : e0 = e /\ e <> NoSuchElementException).
        { destruct e0; inversion H; subst; split; auto; discriminate. }
        destruct He as [-> Hne]. split; auto.
      * intros [Hne [H|[found [Hf _]]]]; [|discriminate].
        inversion H; subst e0. destruct e; auto. now elim Hne.
Qed.

(** C1. Every sub-item of every record the parser returns comes from a file
    row of a group of its category, and its [submission_url] is a string: the
    current URL with the listing path replaced by the row's [fileref].  The
    four other fields are whatever the field extractor found, [None]
    included. *)
Theorem submission_url_always_string (w : world) (records : list value) :
  _parse_submissions w = Ok records ->
  forall record fields categories category items item,
    In record records -> record = VDict fields ->
    Dict.get "submissions" fields = Some (VDict categories) ->
    In (category, VList items) categories -> In item items ->
    exists grid row url ref item_fields,
      row_of_category w grid category row /\
      item_of_row w row item /\
      current_url w = Ok url /\
      get_attribute w row "fileref" = Ok (Some ref) /\
      item = VDict item_fields /\
      Dict.get "submission_url" item_fields = Some (VStr (replace url HOME_PATH ref)).
Proof.
  intros Hparse record fields categories category items item Hrec -> Hget Hcat Hitem.
  destruct (parse_submissions_records _ _ _ Hparse Hrec) as [grids [grid [_ [_ Hgrid]]]].
  destruct (parse_grid_record _ _ _ Hgrid)
    as [issue [deadline [title [mandate [submissions [_ [_ [_ [_ [Heq Hall]]]]]]]]]].
  rewrite submission_record_fields in Heq. inversion Heq; subst fields. clear Heq.
  simpl in Hget. inversion Hget; subst categories. clear Hget.
  destruct (proj1 (Forall_forall _ _) Hall _ Hcat) as [_ [items' [Hitems Hrows]]].
  simpl in Hitems. inversion Hitems; subst items'. clear Hitems.
  destruct (proj1 (Forall_forall _ _) Hrows _ Hitem) as [row [Hrow Hbuilt]].
  simpl in Hrow.
  assert (Hkeep := Hbuilt).
  destruct Hbuilt as [url [ref [name [entity [language [date Hb]]]]]].
  destruct Hb as [Hurl [Href [_ [_ [_ [_ Hval]]]]]].
  exists grid, row, url, ref.
  exists [ ("submission_name", of_option name); ("submission_entity", of_option entity);
           ("submission_language", of_option language);
           ("submission_date", of_option date);
           ("submission_url", VStr (replace url HOME_PATH ref)) ].
  split; [exact Hrow|]. split; [exact Hkeep|].
  split; [exact Hurl|]. split; [exact Href|]. split; [exact Hval|reflexivity].
Qed.

(** C2. The keys of the mapping of every record the parser returns are
    among [RELEVANT_ENTITY_TYPES]; a group whose [entitytype] attribute is
    missing or outside the list leaves the mapping as it was. *)
Theorem submissions_keys_allowed (w : world) (records : list value) :
  _parse_submissions w = Ok records ->
  (forall record fields categories category,
      In record records -> record = VDict fields ->
      Dict.get "submissions" fields = Some (VDict categories) ->
      In category (Dict.keys categories) ->
      In category RELEVANT_ENTITY_TYPES) /\
  (forall section entity_type submissions,
      get_attribute w section "entitytype" = Ok entity_type ->
      (forall category, entity_type = Some category ->
                        ~ In category RELEVANT_ENTITY_TYPES) ->
      parse_section w submissions section = Ok submissions).
Proof.
  intros Hparse. split.
  - intros record fields categories category Hrec -> Hget Hkey.
    destruct (parse_submissions_records _ _ _ Hparse Hrec) as [grids [grid [_ [_ Hgrid]]]].
    destruct (parse_grid_record _ _ _ Hgrid)
      as [issue [deadline [title [mandate [submissions [_ [_ [_ [_ [Heq Hall]]]]]]]]]].
    rewrite submission_record_fields in Heq. inversion Heq; subst fields. clear Heq.
    simpl in Hget. inversion Hget; subst categories. clear Hget.
    unfold Dict.keys in Hkey. apply in_map_iff in Hkey.
    destruct Hkey as [entry [<- Hentry]].
    now destruct (proj1 (Forall_forall _ _) Hall _ Hentry).
  - intros section entity_type submissions Hattr Hout.
    apply (parse_section_skip w submissions section entity_type Hattr).
    destruct (relevant entity_type) eqn:Hrel; auto.
    destruct entity_type as [category|]; [|discriminate].
    apply relevant_in in Hrel. now elim (Hout category eq_refl).
Qed.

(** C9 (as amended). A group of an allowed category without file rows always
    leaves its key in the mapping of its record; the key is bound to the
    empty list when no later group of the same record has the same
    category. *)
Theorem empty_group_keeps_its_key (w : world) (records : list value)
  (grids : list elem) (grid : elem) (before after : list elem) (section : elem)
  (category : string) :
  _parse_submissions w = Ok records ->
  driver_find_elements w GRID_XPATH = Ok grids ->
  In grid grids ->
  find_elements w grid SECTION_XPATH = Ok (before ++ section :: after) ->
  get_attribute w section "entitytype" = Ok (Some category) ->
  In category RELEVANT_ENTITY_TYPES ->
  find_elements w section ROW_XPATH = Ok [] ->
  exists record fields categories,
    In record records /\ parse_grid w grid = Ok record /\
    record = VDict fields /\
    Dict.get "submissions" fields = Some (VDict categories) /\
    Dict.mem category categories = true /\
    ((forall later, In later after ->
                    get_attribute w later "entitytype" <> Ok (Some category)) ->
     Dict.get category categories = Some (VList [])).
Proof.
  intros Hparse Hgrids Hgrid Hsections Hattr Hrel Hrows.
  destruct (parse_submissions_grids _ _ Hparse) as [grids' [Hg HF]].
  rewrite Hgrids in Hg. inversion Hg; subst grids'. clear Hg.
  destruct (Forall2_in_left _ _ _ _ HF Hgrid) as [record [Hrec Hrun]].
  destruct (parse_grid_ok _ _ _ Hrun)
    as [issue [deadline [title [mandate [sections [submissions
         [_ [_ [_ [_ [Hs [Hloop Heq]]]]]]]]]]]].
  rewrite Hsections in Hs. inversion Hs; subst sections. clear Hs.
  destruct (for_each_app _ _ _ _ _ Hloop) as [mid [_ Hrest]].
  simpl in Hrest.
  rewrite (parse_section_empty w mid section category Hattr Hrel Hrows) in Hrest.
  simpl in Hrest.
  exists record. eexists. exists submissions.
  split; [exact Hrec|]. split; [exact Hrun|].
  split; [rewrite Heq; apply submission_record_fields|].
  split; [reflexivity|]. split.
  - apply (for_each_invariant (fun acc => Dict.mem category acc = true)
             (parse_section w) after) with (acc := Dict.set category (VList []) mid); auto.
    + intros acc later acc' _ Hacc Hstep.
      now apply (parse_section_mem_keeps w acc acc' later).
    + apply DictFacts.mem_set_same.
  - intros Hlater.
    apply (for_each_invariant (fun acc => Dict.get category acc = Some (VList []))
             (parse_section w) after) with (acc := Dict.set category (VList []) mid); auto.
    + intros acc later acc' Hin Hacc Hstep. rewrite <- Hacc.
      apply (parse_section_get_other w acc acc' later category Hstep).
      now apply Hlater.
    + apply DictFacts.get_set_same.
Qed.

End ParserFacts.

(** ** The pagination loop *)

Section PaginationFacts.

Context {world elem : Type} {driver : WebDriver world elem}.

Lemma crawl_pagination (w w' : world) (pages : list (list value)) :
  crawl w pages w' ->
  forall fuel subs_container,
    List.length pages <= fuel ->
    pagination fuel subs_container w = Some (Ok (subs_container ++ concat pages), w').
Proof.
  induction 1 as [w w' page Hpage Hturn | w w1 w' page pages Hpage Hturn Hrest IH];
    intros fuel subs Hfuel; simpl in Hfuel.
  - destruct fuel as [|fuel]; [lia|]. simpl.
    rewrite Hpage, Hturn. now rewrite app_nil_r.
  - destruct fuel as [|fuel]; [lia|]. simpl.
    rewrite Hpage, Hturn. rewrite IH by lia. now rewrite app_assoc.
Qed.

Lemma pagination_crawl (fuel : nat) :
  forall (w w' : world) (subs_container out : list value),
    pagination fuel subs_container w = Some (Ok out, w') ->
    exists pages,
      crawl w pages w' /\ List.length pages <= fuel /\
      out = subs_container ++ concat pages.
Proof.
  induction fuel as [|fuel IH]; simpl; intros w w' subs out Hrun; [discriminate|].
  destruct (_parse_submissions w) as [page|e] eqn:Hpage; [|discriminate].
  destruct (turn_page w) as [w1|w1|e w1] eqn:Hturn.
  - inversion Hrun; subst. exists [page]. split; [now constructor|].
    split; [simpl; lia|]. simpl. now rewrite app_nil_r.
  - destruct (IH _ _ _ _ Hrun) as [pages [Hcrawl [Hlen ->]]].
    exists (page :: pages). split; [now apply (crawl_more w w1 w')|].
    split; [simpl; lia|]. simpl. now rewrite app_assoc.
  - discriminate.
Qed.

(** C3. The scraper returns an aggregate exactly when the site can be
    crawled page by page until the loop is left, and the aggregate then holds
    the source URL, the time read once in the world where the loop was left,
    and the records of the pages concatenated in page order. *)
Theorem aggregate_is_concatenation (fuel : nat) (w w' : world) (result_dict : dict) :
  parse_submissions fuel w = Some (Ok result_dict, w') <->
  exists pages,
    crawl w pages w' /\ List.length pages <= fuel /\
    result_dict = [ ("data_source", VStr SUBMISSIONS_URL);
                    ("collected_at", VStr (now w'));
                    ("submissions_data", VList (concat pages)) ].
Proof.
  unfold parse_submissions. split.
  - destruct (pagination fuel [] w) as [[[out|e] w1]|] eqn:Hrun; try discriminate.
    intros H. inversion H; subst. clear H.
    destruct (pagination_crawl _ _ _ _ _ Hrun) as [pages [Hcrawl [Hlen ->]]].
    exists pages. repeat split; auto.
  - intros [pages [Hcrawl [Hlen ->]]].
    now rewrite (crawl_pagination _ _ _ Hcrawl fuel [] Hlen).
Qed.

(** C4 (as amended). The loop is left normally exactly when the lookup of
    the next-page link raises (whatever the exception) or the link is found
    and clicking it raises; when the link is found and the click succeeds, an
    exception of the wait for the next page (a timeout among them) or of the
    scroll leaves the function, and otherwise the loop goes round again on
    the page reached. *)
Theorem loop_left_when_link_lookup_or_click_fails (w : world) :
  ((exists w', turn_page w = Done w') <->
   (exists e, driver_find_element w NEXT_XPATH = Raise e) \/
   (exists nxt e w1,
       driver_find_element w NEXT_XPATH = Ok nxt /\ click w nxt = (Raise e, w1))) /\
  (forall nxt u w1,
      driver_find_element w NEXT_XPATH = Ok nxt -> click w nxt = (Ok u, w1) ->
      (forall e w2, wait_presence w1 20 AREA_XPATH = (Raise e, w2) ->
                    turn_page w = Fatal e w2) /\
      (forall u2 w2 u3 w3,
          wait_presence w1 20 AREA_XPATH = (Ok u2, w2) ->
          execute_script w2 SCROLL_SCRIPT = (Ok u3, w3) ->
          turn_page w = Continue (sleep 3 w3))) /\
  (forall fuel subs_container page,
      _parse_submissions w = Ok page ->
      (forall w', turn_page w = Done w' ->
                  pagination (S fuel) subs_container w
                  = Some (Ok (subs_container ++ page), w')) /\
      (forall e w', turn_page w = Fatal e w' ->
                    pagination (S fuel) subs_container w = Some (Raise e, w')) /\
      (forall w', turn_page w = Continue w' ->
                  pagination (S fuel) subs_container w
                  = pagination fuel (subs_container ++ page) w')).
Proof.
  split; [|split].
  - unfold turn_page, try_next_page. split.
    + intros [w' H].
      destruct (driver_find_element w NEXT_XPATH) as [nxt|e] eqn:Hfind;
        [|left; now exists e].
      right. destruct (click w nxt) as [[u|e] w1] eqn:Hclick.
      * destruct (wait_presence w1 20 AREA_XPATH) as [[u2|e2] w2]; [|discriminate].
        destruct (execute_script w2 SCROLL_SCRIPT) as [[u3|e3] w3]; discriminate.
      * now exists nxt, e, w1.
    + intros [[e H]|[nxt [e [w1 [H1 H2]]]]].
      * rewrite H. now exists w.
      * rewrite H1, H2. now exists w1.
  - intros nxt u w1 Hfind Hclick. unfold turn_page, try_next_page.
    rewrite Hfind, Hclick. split.
    + intros e w2 ->. reflexivity.
    + intros u2 w2 u3 w3 -> ->. reflexivity.
  - intros fuel subs page Hpage. simpl. rewrite Hpage.
    repeat split; intros; match goal with H : turn_page _ = _ |- _ => now rewrite H end.
Qed.

End PaginationFacts.

(** ** The exporters *)

Lemma rows_then_ok (rows : list dict) (more : result (list dict)) (all : list dict) :
  rows_then rows more = Ok all -> exists rest, more = Ok rest /\ all = rows ++ rest.
Proof.
  unfold rows_then. destruct more as [rest|e]; simpl; [|discriminate].
  intros H. inversion H. now exists rest.
Qed.

(** The pop at the head of [write_to_csv], on an aggregate as
    [parse_submissions] builds it. *)
Lemma aggregate_pop (collected_at : string) (records : list value) :
  Dict.pop "submissions_data" (aggregate collected_at records)
  = Some (VList records, metadata collected_at).
Proof. reflexivity. Qed.

(** *** On records of the parser's shape *)

Lemma flatten_items_dicts (category : string) (issue : dict) (items : list value) :
  Forall (fun item => exists fields, item = VDict fields) items ->
  exists rows,
    flatten_items category issue items = (Ok rows, map (tagged_item category) items) /\
    List.length rows = List.length items.
Proof.
  induction 1 as [|item rest [fields ->] _ [rows [IH Hlen]]]; simpl.
  - now exists [].
  - rewrite IH. simpl. eexists. split; [reflexivity|]. simpl. now rewrite Hlen.
Qed.

Lemma flatten_categories_shape (issue : dict) (categories : dict) :
  Forall (fun entry => list_of_dicts (snd entry)) categories ->
  exists rows,
    flatten_categories issue categories = (Ok rows, map tagged_category categories) /\
    List.length rows = list_sum (map (fun kv => list_length (snd kv)) categories).
Proof.
  induction 1 as [|[category v] rest [items [Hv Hitems]] _ [more [IH Hlen]]]; simpl.
  - now exists [].
  - simpl in Hv. subst v. simpl.
    destruct (flatten_items_dicts category issue items Hitems) as [rows [Hrows Hl]].
    rewrite Hrows, IH. simpl. exists (rows ++ more). split; [reflexivity|].
    rewrite length_app. lia.
Qed.

Lemma record_shape_subitems (record : value) :
  record_shape record ->
  exists fields categories,
    record = VDict fields /\ Dict.get "submissions" fields = Some (VDict categories) /\
    Forall (fun entry => list_of_dicts (snd entry)) categories /\
    record_subitems record = list_sum (map (fun kv => list_length (snd kv)) categories).
Proof.
  intros [issue [deadline [title [mandate [categories [-> Hshape]]]]]].
  eexists. exists categories. repeat split; auto.
Qed.

(** A record of the parser's shape passes the guard, yields one row per
    sub-item and is left with its sub-items tagged; the metadata are
    untouched. *)
Lemma flatten_issue_shape (collected_at : string) (record : value) :
  record_shape record ->
  contains "submissions" record = Ok true /\
  exists rows,
    flatten_issue (metadata collected_at) record
    = (Ok rows, (metadata collected_at, tagged_record record)) /\
    List.length rows = record_subitems record.
Proof.
  intros [issue [deadline [title [mandate [categories [-> Hshape]]]]]].
  split; [reflexivity|].
  unfold flatten_issue. simpl.
  match goal with
  | |- context [flatten_categories ?m categories] =>
      destruct (flatten_categories_shape m categories Hshape) as [rows [Hrows Hlen]];
      rewrite Hrows
  end.
  exists rows. split; [reflexivity|]. exact Hlen.
Qed.

Lemma flatten_issues_shape (collected_at : string) (records : list value) :
  Forall record_shape records ->
  exists rows,
    flatten_issues (metadata collected_at) records
    = (Ok rows, (metadata collected_at, map tagged_record records)) /\
    List.length rows = list_sum (map record_subitems records).
Proof.
  induction 1 as [|record rest Hrec _ [more [IH Hlen]]]; simpl.
  - now exists [].
  - destruct (flatten_issue_shape collected_at record Hrec) as [_ [rows [Hrows Hl]]].
    rewrite Hrows, IH. simpl. exists (rows ++ more). split; [reflexivity|].
    rewrite length_app. lia.
Qed.

(** The flat export of an aggregate whose records have the parser's shape. *)
Lemma write_to_csv_shape (collected_at : string) (records : list value) :
  Forall record_shape records ->
  exists rows,
    write_to_csv (aggregate collected_at records)
    = {| container := Ok rows;
         aggregate_after := metadata collected_at;
         submissions_all_after := Some (VList (map tagged_record records)) |} /\
    List.length rows = list_sum (map record_subitems records).
Proof.
  intros Hshape.
  destruct (flatten_issues_shape collected_at records Hshape) as [rows [Hrows Hlen]].
  exists rows. split; auto.
  unfold write_to_csv. simpl. fold (metadata collected_at). now rewrite Hrows.
Qed.

(** *** Run again on the objects a first run left *)

Lemma flatten_items_again (category : string) (issue : dict) (items items' : list value)
  (rows : list dict) :
  flatten_items category issue items = (Ok rows, items') ->
  flatten_items category issue items' = (Ok rows, items').
Proof.
  revert items' rows. induction items as [|item rest IH]; simpl; intros items' rows H.
  - inversion H. reflexivity.
  - destruct item as [| | |fields]; try discriminate.
    destruct (flatten_items category issue rest) as [more rest'] eqn:Hrest.
    inversion H as [[Hrows Hitems]]. clear H.
    destruct (rows_then_ok _ _ _ Hrows) as [tail [-> ->]].
    simpl. rewrite (IH _ _ eq_refl). now rewrite DictFacts.set_set_same.
Qed.

Lemma flatten_categories_again (issue : dict) (categories categories' : dict)
  (rows : list dict) :
  flatten_categories issue categories = (Ok rows, categories') ->
  flatten_categories issue categories' = (Ok rows, categories').
Proof.
  revert categories' rows.
  induction categories as [|[category v] rest IH]; simpl; intros categories' rows H.
  - inversion H. reflexivity.
  - destruct (iterate v) as [items|e] eqn:Hiter; [|discriminate].
    destruct (flatten_items category issue items) as [[found|e] items'] eqn:Hitems;
      [|discriminate].
    destruct (flatten_categories issue rest) as [more rest'] eqn:Hrest.
    inversion H as [[Hrows Hcats]]. clear H.
    destruct (rows_then_ok _ _ _ Hrows) as [tail [-> ->]].
    simpl.
    assert (Hhead : exists items2,
               iterate (store_items v items') = Ok items2 /\
               flatten_items category issue items2 = (Ok found, items') /\
               store_items (store_items v items') items' = store_items v items').
    { destruct v; simpl in *; try discriminate.
      - exists items. repeat split; auto.
      - inversion Hiter; subst items. exists items'. repeat split; auto.
        now apply (flatten_items_again category issue items0).
      - exists items. repeat split; auto. }
    destruct Hhead as [items2 [-> [-> ->]]].
    now rewrite (IH _ _ eq_refl).
Qed.

(** Without a [submissions] entry in the aggregate, a round of the record
    loop leaves the aggregate alone, and run again on the record it left it
    yields the same rows and changes nothing more. *)
Lemma flatten_issue_again (submissions_data after : dict) (issue issue' : value)
  (rows : list dict) :
  Dict.get "submissions" submissions_data = None ->
  flatten_issue submissions_data issue = (Ok rows, (after, issue')) ->
  after = submissions_data /\
  flatten_issue submissions_data issue' = (Ok rows, (submissions_data, issue')).
Proof.
  intros Hmeta. unfold flatten_issue at 1.
  destruct (contains "submissions" issue) as [[|]|e] eqn:Hguard; try discriminate.
  - destruct issue as [| | |fields]; try discriminate.
    unfold Dict.pop.
    rewrite (DictFacts.get_merge_other _ fields _ Hmeta).
    destruct (Dict.get "submissions" fields) as [[| | |categories]|] eqn:Hget;
      try discriminate.
    unfold Dict.mem. rewrite Hmeta.
    destruct (flatten_categories _ categories) as [found updated] eqn:Hcats.
    intros H. inversion H; subst. clear H. split; auto.
    unfold flatten_issue. simpl. unfold Dict.mem at 1.
    rewrite DictFacts.get_set_same. unfold Dict.pop.
    rewrite (DictFacts.get_merge_other _ _ _ Hmeta), DictFacts.get_set_same.
    rewrite (DictFacts.remove_merge _ _ _ Hmeta), DictFacts.remove_set_same.
    rewrite <- (DictFacts.remove_merge _ _ _ Hmeta).
    rewrite (flatten_categories_again _ _ _ _ Hcats).
    unfold Dict.mem. rewrite Hmeta. now rewrite DictFacts.set_set_same.
  - intros H. inversion H; subst. split; auto.
    unfold flatten_issue. now rewrite Hguard.
Qed.

Lemma flatten_issues_again (submissions_data after : dict) (issues issues' : list value)
  (rows : list dict) :
  Dict.get "submissions" submissions_data = None ->
  flatten_issues submissions_data issues = (Ok rows, (after, issues')) ->
  after = submissions_data /\
  flatten_issues submissions_data issues' = (Ok rows, (submissions_data, issues')).
Proof.
  intros Hmeta. revert issues' rows.
  induction issues as [|issue rest IH]; simpl; intros issues' rows H.
  - inversion H. auto.
  - destruct (flatten_issue submissions_data issue) as [[found|e] [mid issue']] eqn:Hissue;
      [|discriminate].
    destruct (flatten_issue_again _ _ _ _ _ Hmeta Hissue) as [-> Hagain].
    destruct (flatten_issues submissions_data rest) as [more [after' rest']] eqn:Hrest.
    inversion H as [[Hrows Hafter Hissues]]. clear H. subst after'.
    destruct (rows_then_ok _ _ _ Hrows) as [tail [-> ->]].
    destruct (IH _ _ eq_refl) as [-> Hrest'].
    split; auto. simpl. now rewrite Hagain, Hrest'.
Qed.

(** The record loop never gives the aggregate a [submissions_data] entry. *)
Lemma flatten_issue_keeps_absent (submissions_data after : dict) (issue issue' : value)
  (rows : result (list dict)) :
  flatten_issue submissions_data issue = (rows, (after, issue')) ->
  Dict.get "submissions_data" submissions_data = None ->
  Dict.get "submissions_data" after = None.
Proof.
  unfold flatten_issue. intros H Hmeta.
  destruct (contains "submissions" issue) as [[|]|]; try (inversion H; subst; assumption).
  destruct issue as [| | |fields]; try (inversion H; subst; assumption).
  destruct (Dict.pop "submissions" (Dict.merge fields submissions_data))
    as [[[| | |categories] merged]|]; try (inversion H; subst; assumption).
  destruct (flatten_categories merged categories) as [found updated].
  destruct (Dict.mem "submissions" submissions_data); inversion H; subst; auto.
  rewrite DictFacts.get_set_other; auto. discriminate.
Qed.

Lemma flatten_issues_keeps_absent (submissions_data after : dict)
  (issues issues' : list value) (rows : result (list dict)) :
  flatten_issues submissions_data issues = (rows, (after, issues')) ->
  Dict.get "submissions_data" submissions_data = None ->
  Dict.get "submissions_data" after = None.
Proof.
  revert submissions_data after issues' rows.
  induction issues as [|issue rest IH]; simpl; intros meta after issues' rows H Hmeta.
  - now inversion H; subst.
  - destruct (flatten_issue meta issue) as [first [mid issue']] eqn:Hissue.
    assert (Hmid := flatten_issue_keeps_absent _ _ _ _ _ Hissue Hmeta).
    destruct first as [first|e]; [|now inversion H; subst].
    destruct (flatten_issues mid rest) as [more [after' rest']] eqn:Hrest.
    inversion H; subst. now apply (IH _ _ _ _ Hrest).
Qed.

(** The steps of a run of the flat export that produced its rows. *)
Lemma write_to_csv_ok (submissions_data : dict) (rows : list dict) :
  container (write_to_csv submissions_data) = Ok rows ->
  exists submissions_all issues after issues',
    Dict.get "submissions_data" submissions_data = Some submissions_all /\
    iterate submissions_all = Ok issues /\
    flatten_issues (Dict.remove "submissions_data" submissions_data) issues
    = (Ok rows, (after, issues')) /\
    write_to_csv submissions_data
    = {| container := Ok rows;
         aggregate_after := after;
         submissions_all_after := Some (store_items submissions_all issues') |}.
Proof.
  unfold write_to_csv, Dict.pop.
  destruct (Dict.get "submissions_data" submissions_data) as [submissions_all|];
    [|discriminate].
  destruct (iterate submissions_all) as [issues|e] eqn:Hiter; [|discriminate].
  destruct (flatten_issues (Dict.remove "submissions_data" submissions_data) issues)
    as [found [after issues']] eqn:Hrun.
  simpl. intros ->. exists submissions_all, issues, after, issues'.
  repeat split; auto.
Qed.

(** C6 (as amended). The flat export is a function of the objects it is
    given, and a run changes them: once a run has produced its rows, a second
    run on the same aggregate object raises [KeyError] (the first run popped
    [submissions_data]); when the record list the first run left is put back
    under that key, the second run produces the same rows in the same order
    (for an aggregate with no [submissions] entry of its own). *)
Theorem flat_export_repeats_only_after_restore (submissions_data : dict)
  (rows : list dict) :
  container (write_to_csv submissions_data) = Ok rows ->
  container (write_to_csv (aggregate_after (write_to_csv submissions_data)))
  = Raise (KeyError "submissions_data") /\
  (Dict.get "submissions" submissions_data = None ->
   exists submissions_all,
     submissions_all_after (write_to_csv submissions_data) = Some submissions_all /\
     container
       (write_to_csv
          (Dict.set "submissions_data" submissions_all
             (aggregate_after (write_to_csv submissions_data))))
     = Ok rows).
Proof.
  intros Hok.
  destruct (write_to_csv_ok _ _ Hok)
    as [submissions_all [issues [after [issues' [Hget [Hiter [Hrun Heq]]]]]]].
  rewrite Heq. simpl. split.
  - assert (Hgone : Dict.get "submissions_data" after = None).
    { apply (flatten_issues_keeps_absent _ _ _ _ _ Hrun).
      apply DictFacts.get_remove_same. }
    unfold write_to_csv, Dict.pop. now rewrite Hgone.
  - intros Hmeta.
    assert (Hmeta' : Dict.get "submissions" (Dict.remove "submissions_data" submissions_data)
                     = None).
    { rewrite DictFacts.get_remove_other; auto. discriminate. }
    destruct (flatten_issues_again _ _ _ _ _ Hmeta' Hrun) as [-> Hagain].
    exists (store_items submissions_all issues'). split; auto.
    unfold write_to_csv, Dict.pop.
    rewrite DictFacts.get_set_same, DictFacts.remove_set_same.
    rewrite (DictFacts.remove_absent _ _ (DictFacts.get_remove_same _ _)).
    assert (Hsame : exists issues2,
               iterate (store_items submissions_all issues') = Ok issues2 /\
               exists issues3,
                 flatten_issues (Dict.remove "submissions_data" submissions_data) issues2
                 = (Ok rows, (Dict.remove "submissions_data" submissions_data, issues3))).
    { destruct submissions_all; simpl in *; try discriminate.
      - exists issues. split; auto. now exists issues'.
      - exists issues'. split; auto. now exists issues'.
      - exists issues. split; auto. now exists issues'. }
    destruct Hsame as [issues2 [-> [issues3 ->]]]. reflexivity.
Qed.

Section ExportFacts.

Context {world elem : Type} {driver : WebDriver world elem}.

Lemma record_of_grid_shape (w : world) (grid : elem) (record : value) :
  record_of_grid w grid record -> record_shape record.
Proof.
  intros [issue [deadline [title [mandate [submissions [_ [_ [_ [_ [-> Hall]]]]]]]]]].
  exists (of_option issue), (of_option deadline), (of_option title), (of_option mandate),
    submissions.
  split; [reflexivity|].
  apply Forall_forall. intros entry Hentry.
  destruct (proj1 (Forall_forall _ _) Hall _ Hentry) as [_ [items [Hv Hitems]]].
  exists items. split; auto.
  apply Forall_forall. intros item Hitem.
  destruct (proj1 (Forall_forall _ _) Hitems _ Hitem)
    as [row [_ [url [ref [n [e [l [d [_ [_ [_ [_ [_ [_ ->]]]]]]]]]]]]]].
  eexists. reflexivity.
Qed.

Lemma parse_submissions_shape (w : world) (records : list value) :
  _parse_submissions w = Ok records -> Forall record_shape records.
Proof.
  intros H. apply Forall_forall. intros record Hin.
  destruct (parse_submissions_records _ _ _ H Hin) as [grids [grid [_ [_ Hgrid]]]].
  apply (record_of_grid_shape w grid). now apply parse_grid_record.
Qed.

Lemma crawl_shape (w w' : world) (pages : list (list value)) :
  crawl w pages w' -> Forall record_shape (concat pages).
Proof.
  induction 1 as [w w' page Hpage _ | w w1 w' page pages Hpage _ _ IH]; simpl.
  - rewrite app_nil_r. now apply (parse_submissions_shape w).
  - apply Forall_app. split; auto. now apply (parse_submissions_shape w).
Qed.

(** What the scraper returns is an aggregate of records of the parser's
    shape. *)
Lemma parse_submissions_aggregate (fuel : nat) (w w' : world) (result_dict : dict) :
  parse_submissions fuel w = Some (Ok result_dict, w') ->
  exists records,
    result_dict = aggregate (now w') records /\ Forall record_shape records.
Proof.
  unfold parse_submissions.
  destruct (pagination fuel [] w) as [[[out|e] w1]|] eqn:Hrun; try discriminate.
  intros H. inversion H; subst. clear H.
  destruct (pagination_crawl _ _ _ _ _ Hrun) as [pages [Hcrawl [_ ->]]].
  exists (concat pages). split; [reflexivity|]. now apply (crawl_shape w w').
Qed.

(** C7. For every aggregate the scraper returns, the flat export succeeds
    and has as many rows as the nested document has sub-items, summed over
    all records and all categories. *)
Theorem flat_rows_match_nested_subitems (fuel : nat) (w w' : world)
  (result_dict : dict) :
  parse_submissions fuel w = Some (Ok result_dict, w') ->
  exists rows,
    container (snd (export result_dict)) = Ok rows /\
    List.length rows = document_subitems (fst (export result_dict)).
Proof.
  intros H. destruct (parse_submissions_aggregate _ _ _ _ H) as [records [-> Hshape]].
  destruct (write_to_csv_shape (now w') records Hshape) as [rows [Hrun Hlen]].
  exists rows. unfold export. simpl write_to_json. cbv iota beta. simpl fst. simpl snd.
  rewrite Hrun. split; [reflexivity|]. exact Hlen.
Qed.

(** C10. Every record the parser returns has a [submissions] entry, so the
    guard of the flat exporter lets it through; it yields one row per
    sub-item, hence no row exactly when every category of its mapping is
    bound to the empty list (an empty mapping included). *)
Theorem every_record_passes_guard (w : world) (records : list value) :
  _parse_submissions w = Ok records ->
  forall record collected_at,
    In record records ->
    contains "submissions" record = Ok true /\
    exists fields categories rows,
      record = VDict fields /\
      Dict.get "submissions" fields = Some (VDict categories) /\
      fst (flatten_issue (metadata collected_at) record) = Ok rows /\
      List.length rows = record_subitems record /\
      (rows = [] <-> Forall (fun entry => snd entry = VList []) categories).
Proof.
  intros Hparse record collected_at Hin.
  assert (Hshape : record_shape record).
  { apply (proj1 (Forall_forall _ _) (parse_submissions_shape _ _ Hparse)). exact Hin. }
  destruct (flatten_issue_shape collected_at record Hshape) as [Hguard [rows [Hrun Hlen]]].
  split; auto.
  destruct (record_shape_subitems record Hshape)
    as [fields [categories [-> [Hget [Hcats Hcount]]]]].
  exists fields, categories, rows. rewrite Hrun. repeat split; auto.
  - intros ->. rewrite Hcount in Hlen. simpl in Hlen. clear Hcount Hrun Hget.
    induction Hcats as [|[category v] rest [items [Hv _]] _ IH]; constructor.
    + simpl in *. subst v. simpl in Hlen. destruct items; [reflexivity|simpl in Hlen; lia].
    + apply IH. simpl in Hlen. lia.
  - intros Hempty. rewrite Hcount in Hlen.
    assert (Hzero : list_sum (map (fun kv => list_length (snd kv)) categories) = 0).
    { clear -Hempty. induction Hempty as [|[category v] rest Hv _ IH]; simpl; auto.
      simpl in Hv. subst v. simpl. exact IH. }
    rewrite Hzero in Hlen. now destruct rows.
Qed.

(** C5 (as amended). The nested exporter leaves the aggregate as it was.
    The flat exporter does not: from an aggregate the scraper returned it
    removes [submissions_data] (the two metadata entries stay as they were),
    and in the record list it held it writes [entity_type] into every
    sub-item, changing nothing else.  Called in the order of [main], both
    exporters read the aggregate as the scraper returned it. *)
Theorem only_nested_export_is_read_only (fuel : nat) (w w' : world)
  (result_dict : dict) :
  parse_submissions fuel w = Some (Ok result_dict, w') ->
  write_to_json result_dict = (VDict result_dict, result_dict) /\
  export result_dict = (VDict result_dict, write_to_csv result_dict) /\
  exists records,
    Dict.get "submissions_data" result_dict = Some (VList records) /\
    aggregate_after (write_to_csv result_dict) = Dict.remove "submissions_data" result_dict /\
    aggregate_after (write_to_csv result_dict) = metadata (now w') /\
    submissions_all_after (write_to_csv result_dict)
    = Some (VList (map tagged_record records)).
Proof.
  intros H. split; [reflexivity|]. split; [reflexivity|].
  destruct (parse_submissions_aggregate _ _ _ _ H) as [records [-> Hshape]].
  destruct (write_to_csv_shape (now w') records Hshape) as [rows [Hrun _]].
  exists records. rewrite Hrun. repeat split; reflexivity.
Qed.

End ExportFacts.

(** ** More on the record parser *)

(** A loop that ends without raising has run its body without raising on
    every element. *)
Lemma for_each_steps {A S : Type} (body : S -> A -> result S) (xs : list A) :
  forall acc out,
    for_each body xs acc = Ok out ->
    forall x, In x xs -> exists before after, body before x = Ok after.
Proof.
  induction xs as [|x0 rest IH]; simpl; intros acc out Hrun x Hin; [contradiction|].
  destruct (body acc x0) as [acc1|e] eqn:E; simpl in Hrun; [|discriminate].
  destruct Hin as [<-|Hin].
  - now exists acc, acc1.
  - now apply (IH acc1 out).
Qed.


Lemma replace_scan_absent (old new s : string) :
  is_substring old s = false -> replace_scan old new 0 s = s.
Proof.
  induction s as [|c rest IH]; simpl; auto.
  intros H. apply orb_false_iff in H. destruct H as [Hprefix Hrest].
  simpl in Hprefix. rewrite Hprefix. now rewrite IH.
Qed.

(** [str.replace] gives the string back when [old] does not occur in it. *)
Lemma replace_absent (s old new : string) :
  is_substring old s = false -> replace s old new = s.
Proof.
  unfold replace. destruct old as [|c old'].
  - destruct s; discriminate.
  - apply replace_scan_absent.
Qed.


Section MoreParserFacts.

Context {world elem : Type} {driver : WebDriver world elem}.

(** Where a sub-item of a returned record comes from. *)
Lemma item_origin (w : world) (records : list value) (record : value) (fields categories : dict)
  (category : string) (items : list value) (item : value) :
  _parse_submissions w = Ok records ->
  In record records -> record = VDict fields ->
  Dict.get "submissions" fields = Some (VDict categories) ->
  In (category, VList items) categories -> In item items ->
  In category RELEVANT_ENTITY_TYPES /\
  exists grid row, row_of_category w grid category row /\ item_of_row w row item.
Proof.
  intros Hparse Hrec -> Hget Hcat Hitem.
  destruct (parse_submissions_records _ _ _ Hparse Hrec) as [grids [grid [_ [_ Hgrid]]]].
  destruct (parse_grid_record _ _ _ Hgrid)
    as [issue [deadline [title [mandate [submissions [_ [_ [_ [_ [Heq Hall]]]]]]]]]].
  rewrite submission_record_fields in Heq. inversion Heq; subst fields. clear Heq.
  simpl in Hget. inversion Hget; subst categories. clear Hget.
  destruct (proj1 (Forall_forall _ _) Hall _ Hcat) as [Hrel [items' [Hitems Hrows]]].
  simpl in Hitems, Hrel. inversion Hitems; subst items'. clear Hitems.
  destruct (proj1 (Forall_forall _ _) Hrows _ Hitem) as [row [Hrow Hbuilt]].
  split; auto. now exists grid, row.
Qed.


(** X1. A page that parses yields one record per grid cell, in the order of
    the cells, each built from its own cell (four optional texts and the
    mapping of its groups); a page without cells yields the empty list. *)
Theorem one_record_per_grid_cell (w : world) (records : list value) :
  _parse_submissions w = Ok records ->
  exists grids,
    driver_find_elements w GRID_XPATH = Ok grids /\
    List.length records = List.length grids /\
    forall i grid record,
      nth_error grids i = Some grid -> nth_error records i = Some record ->
      parse_grid w grid = Ok record /\ record_of_grid w grid record.
Proof.
  intros H. destruct (parse_submissions_grids _ _ H) as [grids [Hgrids HF]].
  exists grids. split; [exact Hgrids|]. clear H Hgrids.
  induction HF as [|grid record grids records Hrun HF [Hlen IH]].
  - split; [reflexivity|]. intros [|i] grid record Hg; discriminate Hg.
  - split; [simpl; now rewrite Hlen|].
    intros [|i] g r Hg Hr; simpl in Hg, Hr.
    + inversion Hg; inversion Hr; subst. split; [exact Hrun|].
      now apply parse_grid_record.
    + now apply (IH i).
Qed.

(** X2. A file row without a [fileref] attribute in a group of an allowed
    category makes the whole page fail: the row's own round raises
    [TypeError] as soon as the URL is read, and [_parse_submissions] returns
    no record at all. *)
Theorem row_without_fileref_fails_page (w : world) (grids : list elem) (grid : elem)
  (category : string) (row : elem) :
  driver_find_elements w GRID_XPATH = Ok grids ->
  In grid grids ->
  row_of_category w grid category row ->
  In category RELEVANT_ENTITY_TYPES ->
  get_attribute w row "fileref" = Ok None ->
  (exists e, _parse_submissions w = Raise e) /\
  (forall url submissions,
      current_url w = Ok url ->
      parse_row w category submissions row = Raise TypeError).
Proof.
  intros Hgrids Hgrid [sections [section [rows [Hsections [Hsection [Hattr [Hrows Hrow]]]]]]]
    Hrel Href.
  split.
  - destruct (_parse_submissions w) as [records|e] eqn:Hparse; [|now exists e].
    exfalso.
    destruct (parse_submissions_grids _ _ Hparse) as [grids' [Hg HF]].
    rewrite Hgrids in Hg. inversion Hg; subst grids'. clear Hg.
    destruct (Forall2_in_left _ _ _ _ HF Hgrid) as [record [_ Hrun]].
    destruct (parse_grid_ok _ _ _ Hrun)
      as [issue [deadline [title [mandate [sections' [submissions
           [_ [_ [_ [_ [Hs [Hloop _]]]]]]]]]]]].
    rewrite Hsections in Hs. inversion Hs; subst sections'. clear Hs.
    destruct (for_each_steps _ _ _ _ Hloop _ Hsection) as [acc [acc' Hstep]].
    destruct (parse_section_ok _ _ _ _ Hstep) as [et [Hattr' Hcases]].
    rewrite Hattr in Hattr'. inversion Hattr'; subst et. clear Hattr'.
    destruct Hcases as [[Hno _]|[category' [rows' [Heq [_ [Hrows' Hrun']]]]]].
    + apply relevant_in in Hrel. rewrite Hrel in Hno. discriminate.
    + inversion Heq; subst category'. clear Heq.
      rewrite Hrows in Hrows'. inversion Hrows'; subst rows'. clear Hrows'.
      destruct (for_each_steps _ _ _ _ Hrun' _ Hrow) as [a [a' Hbody]].
      destruct (parse_row_ok _ _ _ _ _ Hbody) as [item [items [Hitem _]]].
      destruct Hitem as [url [ref [n [e [l [d [_ [Hsome _]]]]]]]].
      rewrite Href in Hsome. discriminate.
  - intros url submissions Hurl. unfold parse_row. now rewrite Hurl, Href.
Qed.


(** X4. When the URL of the page does not contain the listing path, nothing
    is substituted: every sub-item gets the URL of the page itself as its
    [submission_url], whatever its [fileref]. *)
Theorem url_without_listing_path_is_kept (w : world) (records : list value) (url : string) :
  _parse_submissions w = Ok records ->
  current_url w = Ok url ->
  is_substring HOME_PATH url = false ->
  forall record fields categories category items item,
    In record records -> record = VDict fields ->
    Dict.get "submissions" fields = Some (VDict categories) ->
    In (category, VList items) categories -> In item items ->
    exists item_fields,
      item = VDict item_fields /\
      Dict.get "submission_url" item_fields = Some (VStr url).
Proof.
  intros Hparse Hurl Hno record fields categories category items item Hrec Hf Hget Hcat Hitem.
  destruct (item_origin _ _ _ _ _ _ _ _ Hparse Hrec Hf Hget Hcat Hitem)
    as [_ [grid [row [_ Hbuilt]]]].
  destruct Hbuilt as [url' [ref [n [e [l [d [Hurl' [_ [_ [_ [_ [_ ->]]]]]]]]]]]].
  rewrite Hurl in Hurl'. inversion Hurl'; subst url'.
  rewrite (replace_absent url HOME_PATH ref Hno).
  eexists. split; reflexivity.
Qed.


End MoreParserFacts.

(** ** More on the pagination loop *)

Section MorePaginationFacts.

Context {world elem : Type} {driver : WebDriver world elem}.




(** X7. The loop has no bound of its own: on a site where every page
    reached parses and has a next-page link that works, no number of rounds
    ends it. *)
Theorem pagination_never_ends_while_links_work (reachable : world -> Prop) :
  (forall w, reachable w ->
             (exists page, _parse_submissions w = Ok page) /\
             (exists w1, turn_page w = Continue w1 /\ reachable w1)) ->
  forall fuel w, reachable w -> parse_submissions fuel w = None.
Proof.
  intros Hclosed fuel w Hw. unfold parse_submissions.
  assert (Hloop : forall subs, pagination fuel subs w = None).
  { revert w Hw. induction fuel as [|fuel IH]; simpl; intros w Hw subs; auto.
    destruct (Hclosed w Hw) as [[page Hpage] [w1 [Hturn Hw1]]].
    rewrite Hpage, Hturn. now apply IH. }
  now rewrite Hloop.
Qed.

End MorePaginationFacts.

(** ** More on the flat export *)

Lemma flatten_items_rows (category : string) (issue : dict) (items items' : list value)
  (rows : list dict) :
  flatten_items category issue items = (Ok rows, items') ->
  rows = rows_of_items category issue (VList items).
Proof.
  revert items' rows. induction items as [|item rest IH]; simpl; intros items' rows H.
  - now inversion H.
  - destruct item as [| | |fields]; try discriminate.
    destruct (flatten_items category issue rest) as [more rest'] eqn:Hrest.
    inversion H as [[Hrows Hitems]]. clear H.
    destruct (rows_then_ok _ _ _ Hrows) as [tail [-> ->]].
    simpl. f_equal. now apply (IH rest').
Qed.

Lemma flatten_categories_rows (issue : dict) (categories categories' : dict)
  (rows : list dict) :
  flatten_categories issue categories = (Ok rows, categories') ->
  rows = flat_map (fun entry => rows_of_items (fst entry) issue (snd entry)) categories.
Proof.
  revert categories' rows.
  induction categories as [|[category v] rest IH]; simpl; intros categories' rows H.
  - now inversion H.
  - destruct (iterate v) as [items|e] eqn:Hiter; [|discriminate].
    destruct (flatten_items category issue items) as [[found|e] items'] eqn:Hitems;
      [|discriminate].
    destruct (flatten_categories issue rest) as [more rest'] eqn:Hrest.
    inversion H as [[Hrows Hcats]]. clear H.
    destruct (rows_then_ok _ _ _ Hrows) as [tail [-> ->]].
    rewrite <- (IH _ _ eq_refl). f_equal.
    destruct v as [|s|l|d]; simpl in Hiter; try discriminate.
    + inversion Hiter; subst items. clear Hiter.
      destruct (list_ascii_of_string s); simpl in Hitems; [|discriminate].
      now inversion Hitems.
    + inversion Hiter; subst items. now apply (flatten_items_rows _ _ _ items').
    + inversion Hiter; subst items. clear Hiter.
      destruct d; simpl in Hitems; [|discriminate].
      now inversion Hitems.
Qed.

Lemma flatten_issue_rows (submissions_data after : dict) (issue issue' : value)
  (rows : list dict) :
  Dict.get "submissions" submissions_data = None ->
  flatten_issue submissions_data issue = (Ok rows, (after, issue')) ->
  rows = rows_of_record submissions_data issue.
Proof.
  intros Hmeta. unfold flatten_issue, rows_of_record.
  destruct (contains "submissions" issue) as [[|]|e] eqn:Hguard; try discriminate.
  - destruct issue as [| | |fields]; try discriminate.
    unfold Dict.pop. rewrite (DictFacts.get_merge_other _ fields _ Hmeta).
    destruct (Dict.get "submissions" fields) as [[| | |categories]|] eqn:Hget;
      try discriminate.
    destruct (flatten_categories _ categories) as [found updated] eqn:Hcats.
    intros H. inversion H; subst. now apply (flatten_categories_rows _ _ updated).
  - intros H. assert (Hrows : rows = []) by (inversion H; reflexivity).
    rewrite Hrows. clear H Hrows.
    destruct issue as [| | |fields]; auto.
    simpl in Hguard. unfold Dict.mem in Hguard.
    destruct (Dict.get "submissions" fields); [discriminate|reflexivity].
Qed.

Lemma flatten_issues_rows (submissions_data after : dict) (issues issues' : list value)
  (rows : list dict) :
  Dict.get "submissions" submissions_data = None ->
  flatten_issues submissions_data issues = (Ok rows, (after, issues')) ->
  rows = flat_map (rows_of_record submissions_data) issues.
Proof.
  intros Hmeta. revert after issues' rows.
  induction issues as [|issue rest IH]; simpl; intros after issues' rows H.
  - now inversion H.
  - destruct (flatten_issue submissions_data issue) as [[found|e] [mid issue']] eqn:Hissue;
      [|discriminate].
    destruct (flatten_issue_again _ _ _ _ _ Hmeta Hissue) as [-> _].
    destruct (flatten_issues submissions_data rest) as [more [after' rest']] eqn:Hrest.
    inversion H as [[Hrows Hafter Hissues]]. clear H.
    destruct (rows_then_ok _ _ _ Hrows) as [tail [-> ->]].
    rewrite <- (IH _ _ _ eq_refl). f_equal.
    now apply (flatten_issue_rows _ _ _ _ _ Hmeta Hissue).
Qed.

(** The rows of a flat export that succeeded, for a record list. *)
Lemma write_to_csv_rows (submissions_data : dict) (records : list value)
  (rows : list dict) :
  Dict.get "submissions" submissions_data = None ->
  Dict.get "submissions_data" submissions_data = Some (VList records) ->
  container (write_to_csv submissions_data) = Ok rows ->
  rows = flat_map (rows_of_record (Dict.remove "submissions_data" submissions_data)) records.
Proof.
  intros Hmeta Hget Hok.
  destruct (write_to_csv_ok _ _ Hok)
    as [submissions_all [issues [after [issues' [Hget' [Hiter [Hrun _]]]]]]].
  rewrite Hget in Hget'. inversion Hget'; subst submissions_all. clear Hget'.
  simpl in Hiter. inversion Hiter; subst issues. clear Hiter.
  apply (flatten_issues_rows _ after records issues'); auto.
  rewrite DictFacts.get_remove_other; auto. discriminate.
Qed.

(** *** What can go wrong in the flat export *)

Lemma mem_merge_keeps (k : string) (a b : dict) :
  Dict.mem k a = true -> Dict.mem k (Dict.merge a b) = true.
Proof.
  unfold Dict.merge. revert a. induction b as [|[k' v'] rest IH]; simpl; auto.
  intros a Ha. apply IH. now apply DictFacts.mem_set_keeps.
Qed.

Lemma flatten_items_raises (category : string) (issue : dict) (items : list value) (e : exn) :
  fst (flatten_items category issue items) = Raise e -> e = TypeError.
Proof.
  induction items as [|item rest IH]; simpl; [discriminate|].
  destruct item as [| | |fields]; simpl; try (intros H; now inversion H).
  destruct (flatten_items category issue rest) as [[more|e'] rest']; simpl in *;
    [discriminate|].
  intros H. inversion H; subst. now apply IH.
Qed.

Lemma flatten_categories_raises (issue : dict) (categories : dict) (e : exn) :
  fst (flatten_categories issue categories) = Raise e -> e = TypeError.
Proof.
  induction categories as [|[category v] rest IH]; simpl; [discriminate|].
  destruct (iterate v) as [items|e'] eqn:Hiter.
  - destruct (flatten_items category issue items) as [[found|e'] items'] eqn:Hitems.
    + destruct (flatten_categories issue rest) as [[more|e'] rest']; simpl in *;
        [discriminate|].
      intros H. inversion H; subst. now apply IH.
    + simpl. intros H. inversion H; subst.
      apply (flatten_items_raises category issue items). now rewrite Hitems.
  - simpl. intros H. inversion H; subst.
    destruct v; simpl in Hiter; try discriminate. now inversion Hiter.
Qed.

Lemma flatten_issue_raises (submissions_data : dict) (issue : value) (e : exn) :
  fst (flatten_issue submissions_data issue) = Raise e ->
  e = TypeError \/ e = AttributeError.
Proof.
  unfold flatten_issue.
  destruct (contains "submissions" issue) as [[|]|e'] eqn:Hguard; simpl.
  - destruct issue as [| | |fields]; simpl; try (intros H; inversion H; now left).
    simpl in Hguard. injection Hguard as Hmem.
    assert (Hmerged := mem_merge_keeps "submissions" fields submissions_data Hmem).
    unfold Dict.mem in Hmerged. unfold Dict.pop.
    destruct (Dict.get "submissions" (Dict.merge fields submissions_data))
      as [v|]; [|discriminate Hmerged].
    destruct v as [| | |categories]; simpl; try (intros H; inversion H; now right).
    destruct (flatten_categories
                (Dict.remove "submissions" (Dict.merge fields submissions_data)) categories)
      as [found updated] eqn:Hcats.
    simpl. intros H. subst found. left.
    apply (flatten_categories_raises
             (Dict.remove "submissions" (Dict.merge fields submissions_data)) categories).
    now rewrite Hcats.
  - discriminate.
  - intros H. inversion H; subst. left.
    destruct issue; simpl in Hguard; try discriminate. now inversion Hguard.
Qed.

Lemma flatten_issues_raises (issues : list value) :
  forall (submissions_data : dict) (e : exn),
    fst (flatten_issues submissions_data issues) = Raise e ->
    e = TypeError \/ e = AttributeError.
Proof.
  induction issues as [|issue rest IH]; simpl; intros meta e; [discriminate|].
  destruct (flatten_issue meta issue) as [[found|e'] [mid issue']] eqn:Hissue.
  - destruct (flatten_issues mid rest) as [[more|e'] [after rest']] eqn:Hrest; simpl;
      [discriminate|].
    intros H. inversion H; subst. apply (IH mid). now rewrite Hrest.
  - simpl. intros H. inversion H; subst.
    apply (flatten_issue_raises meta issue). now rewrite Hissue.
Qed.

(** X9. The part of [write_to_csv] that builds the rows (everything before
    the [DataFrame]), on an aggregate made of [None], strings, lists and dicts
    in which no object is stored in two places: it raises [KeyError] exactly
    when the dict has no [submissions_data] entry, and then leaves the dict as
    it was; the only other exceptions it can raise are [TypeError] and
    [AttributeError] (an object of the wrong kind where a list or a dict is
    expected) -- the second pop, of [submissions], never fails. *)
Theorem flat_export_errors (submissions_data : dict) :
  (Dict.get "submissions_data" submissions_data = None <->
   container (write_to_csv submissions_data) = Raise (KeyError "submissions_data")) /\
  (Dict.get "submissions_data" submissions_data = None ->
   aggregate_after (write_to_csv submissions_data) = submissions_data) /\
  (forall e,
      container (write_to_csv submissions_data) = Raise e ->
      e = KeyError "submissions_data" \/ e = TypeError \/ e = AttributeError).
Proof.
  assert (Hall : forall e,
             container (write_to_csv submissions_data) = Raise e ->
             (e = KeyError "submissions_data" /\
              Dict.get "submissions_data" submissions_data = None) \/
             e = TypeError \/ e = AttributeError).
  { intros e. unfold write_to_csv, Dict.pop.
    destruct (Dict.get "submissions_data" submissions_data) as [submissions_all|] eqn:Hget.
    - destruct (iterate submissions_all) as [issues|e'] eqn:Hiter; simpl.
      + destruct (flatten_issues (Dict.remove "submissions_data" submissions_data) issues)
          as [found [after issues']] eqn:Hrun.
        simpl. intros ->. right.
        apply (flatten_issues_raises issues (Dict.remove "submissions_data" submissions_data)).
        now rewrite Hrun.
      + intros H. inversion H; subst. right. left.
        destruct submissions_all; simpl in Hiter; try discriminate. now inversion Hiter.
    - simpl. intros H. inversion H. now left. }
  split; [split|split].
  - intros Hget. unfold write_to_csv, Dict.pop. now rewrite Hget.
  - intros H. destruct (Hall _ H) as [[_ Hget]|[Hbad|Hbad]]; auto; discriminate.
  - intros Hget. unfold write_to_csv, Dict.pop. now rewrite Hget.
  - intros e H. destruct (Hall _ H) as [[-> _] | [-> | ->]]; auto.
Qed.

(** *** The rows of a scraped aggregate *)

Lemma parsed_record_shape (record : value) : parsed_record record -> record_shape record.
Proof.
  intros [issue [deadline [title [mandate [categories [-> Hall]]]]]].
  exists (of_option issue), (of_option deadline), (of_option title), (of_option mandate),
    categories.
  split; [reflexivity|].
  apply Forall_forall. intros entry Hentry.
  destruct (proj1 (Forall_forall _ _) Hall _ Hentry) as [_ [items [Hv Hitems]]].
  exists items. split; auto.
  apply Forall_forall. intros item Hitem.
  destruct (proj1 (Forall_forall _ _) Hitems _ Hitem) as [n [e [l [d [u ->]]]]].
  eexists. reflexivity.
Qed.

Lemma rows_of_parsed_record (collected_at : string) (record : value) :
  parsed_record record ->
  Forall (scraped_row collected_at) (rows_of_record (metadata collected_at) record).
Proof.
  intros [issue [deadline [title [mandate [categories [-> Hall]]]]]].
  apply Forall_forall. intros row Hrow.
  unfold rows_of_record in Hrow. rewrite submission_record_fields in Hrow.
  simpl in Hrow. apply in_flat_map in Hrow.
  destruct Hrow as [[category v] [Hentry Hrow]].
  destruct (proj1 (Forall_forall _ _) Hall _ Hentry) as [Hrel [items [Hv Hitems]]].
  simpl in Hv, Hrel, Hrow. subst v. simpl in Hrow. apply in_flat_map in Hrow.
  destruct Hrow as [item [Hitem Hrow]].
  destruct (proj1 (Forall_forall _ _) Hitems _ Hitem) as [n [e [l [d [u ->]]]]].
  simpl in Hrow. destruct Hrow as [<-|[]].
  unfold scraped_row. split; [reflexivity|].
  split; [exists category; split; [reflexivity|exact Hrel]|].
  split; [exists u; reflexivity|]. split; reflexivity.
Qed.

Section MoreExportFacts.

Context {world elem : Type} {driver : WebDriver world elem}.

Lemma record_of_grid_parsed (w : world) (grid : elem) (record : value) :
  record_of_grid w grid record -> parsed_record record.
Proof.
  intros [issue [deadline [title [mandate [submissions [_ [_ [_ [_ [-> Hall]]]]]]]]]].
  exists issue, deadline, title, mandate, submissions. split; [reflexivity|].
  apply Forall_forall. intros entry Hentry.
  destruct (proj1 (Forall_forall _ _) Hall _ Hentry) as [Hrel [items [Hv Hitems]]].
  split; auto. exists items. split; auto.
  apply Forall_forall. intros item Hitem.
  destruct (proj1 (Forall_forall _ _) Hitems _ Hitem) as [row [_ Hbuilt]].
  destruct Hbuilt as [url [ref [n [e [l [d [_ [_ [_ [_ [_ [_ ->]]]]]]]]]]]].
  now exists n, e, l, d, (replace url HOME_PATH ref).
Qed.

Lemma parse_submissions_parsed (w : world) (records : list value) :
  _parse_submissions w = Ok records -> Forall parsed_record records.
Proof.
  intros H. apply Forall_forall. intros record Hin.
  destruct (parse_submissions_records _ _ _ H Hin) as [grids [grid [_ [_ Hgrid]]]].
  apply (record_of_grid_parsed w grid). now apply parse_grid_record.
Qed.

Lemma crawl_parsed (w w' : world) (pages : list (list value)) :
  crawl w pages w' -> Forall parsed_record (concat pages).
Proof.
  induction 1 as [w w' page Hpage _ | w w1 w' page pages Hpage _ _ IH]; simpl.
  - rewrite app_nil_r. now apply (parse_submissions_parsed w).
  - apply Forall_app. split; auto. now apply (parse_submissions_parsed w).
Qed.

Lemma parse_submissions_parsed_aggregate (fuel : nat) (w w' : world) (result_dict : dict) :
  parse_submissions fuel w = Some (Ok result_dict, w') ->
  exists records,
    result_dict = aggregate (now w') records /\ Forall parsed_record records.
Proof.
  unfold parse_submissions.
  destruct (pagination fuel [] w) as [[[out|e] w1]|] eqn:Hrun; try discriminate.
  intros H. inversion H; subst. clear H.
  destruct (pagination_crawl _ _ _ _ _ Hrun) as [pages [Hcrawl [_ ->]]].
  exists (concat pages). split; [reflexivity|]. now apply (crawl_parsed w w').
Qed.

(** X10. Every row of the flat export of an aggregate the scraper returned
    has the same twelve columns in the same order; its [entity_type] is an
    allowed category, its [submission_url] a string, and its [data_source] and
    [collected_at] those of the run. *)
Theorem flat_rows_have_twelve_columns (fuel : nat) (w w' : world) (result_dict : dict) :
  parse_submissions fuel w = Some (Ok result_dict, w') ->
  exists rows,
    container (write_to_csv result_dict) = Ok rows /\
    Forall (scraped_row (now w')) rows.
Proof.
  intros H.
  destruct (parse_submissions_parsed_aggregate _ _ _ _ H) as [records [-> Hparsed]].
  assert (Hshape : Forall record_shape records).
  { apply Forall_forall. intros record Hin. apply parsed_record_shape.
    now apply (proj1 (Forall_forall _ _) Hparsed). }
  destruct (write_to_csv_shape (now w') records Hshape) as [rows [Hrun _]].
  exists rows. rewrite Hrun. split; [reflexivity|].
  assert (Hrows : rows = flat_map (rows_of_record (metadata (now w'))) records).
  { apply (write_to_csv_rows (aggregate (now w') records) records rows);
      try reflexivity. now rewrite Hrun. }
  rewrite Hrows. clear Hrows Hrun H Hshape.
  induction Hparsed as [|record rest Hrec _ IH]; simpl; [constructor|].
  apply Forall_app. split; [now apply rows_of_parsed_record|exact IH].
Qed.

(** X8. For every aggregate the scraper returned, the rows the flat export
    builds are those of a projection that changes nothing, computed on the
    aggregate as it was before the call: record after record, inside a record
    category after category in the order of the mapping, inside a category
    sub-item after sub-item; each row is the sub-item with [entity_type] set,
    updated with the record's other fields and the two metadata entries. *)
Theorem flat_export_is_ordered_projection (fuel : nat) (w w' : world) (result_dict : dict) :
  parse_submissions fuel w = Some (Ok result_dict, w') ->
  exists records rows,
    Dict.get "submissions_data" result_dict = Some (VList records) /\
    container (write_to_csv result_dict) = Ok rows /\
    rows = flat_map (rows_of_record (metadata (now w'))) records.
Proof.
  intros H.
  destruct (parse_submissions_aggregate _ _ _ _ H) as [records [-> Hshape]].
  destruct (write_to_csv_shape (now w') records Hshape) as [rows [Hrun _]].
  exists records, rows. split; [reflexivity|].
  assert (Hok : container (write_to_csv (aggregate (now w') records)) = Ok rows)
    by now rewrite Hrun.
  split; [exact Hok|].
  exact (write_to_csv_rows (aggregate (now w') records) records rows eq_refl eq_refl Hok).
Qed.

End MoreExportFacts.

(** ** [main] *)

Section MainFacts.

Context {world elem disk : Type} {driver : WebDriver world elem}
  {runtime : Runtime world elem} {files : FileSystem disk}.

(** The row loop of the flat export cannot raise on what the scraper
    returned. *)
Lemma scraped_aggregate_exports (fuel : nat) (w w' : world) (result_dict : dict) :
  parse_submissions fuel w = Some (Ok result_dict, w') ->
  exists rows,
    container (write_to_csv result_dict) = Ok rows /\
    List.length rows = document_subitems (VDict result_dict).
Proof.
  intros H. destruct (parse_submissions_aggregate _ _ _ _ H) as [records [-> Hshape]].
  destruct (write_to_csv_shape (now w') records Hshape) as [rows [Hrun Hlen]].
  exists rows. rewrite Hrun. split; [reflexivity|exact Hlen].
Qed.

(** X11. However [main] ends, the browser is closed only after both files
    were written.  When the launch, the opening of the page or the scrape
    raises, that exception leaves [main], no file call is made (the disk is as
    it was) and the browser stays open.  After a scrape that returned, the
    row loop of the flat export cannot raise and yields one row per sub-item,
    so [main] can only stop on the exception of a file call: of [os.mkdir],
    of the JSON write (handed the whole aggregate), or of the CSV write, the
    JSON file being written by then; in each case the browser stays open.
    Only when both writes succeed is [kill_webdriver] run. *)
Theorem main_closes_browser_only_after_both_writes (fuel : nat)
  (path_to_geckodriver : option string) (headless : bool)
  (w w' : world) (d d' : disk) (how : ending) :
  main fuel path_to_geckodriver headless w d = Some (how, w', d') ->
  (exists e,
      how = Raised (Python e) /\ d' = d /\
      scrape fuel path_to_geckodriver headless w = Some (Raise e, w')) \/
  (exists result_dict w3 rows,
      scrape fuel path_to_geckodriver headless w = Some (Ok result_dict, w3) /\
      container (write_to_csv result_dict) = Ok rows /\
      List.length rows = document_subitems (VDict result_dict) /\
      ((exists strerror,
           how = Raised (FileError strerror) /\ w' = w3 /\
           isdir d "data" = false /\ mkdir d "data" = (Some strerror, d')) \/
       (exists d1,
           data_dir_ready d d1 /\
           ((exists strerror,
                how = Raised (FileError strerror) /\ w' = w3 /\
                dump_json d1 (path_join "data" "submissions_data.json") (VDict result_dict)
                = (Some strerror, d')) \/
            (exists d2,
                dump_json d1 (path_join "data" "submissions_data.json") (VDict result_dict)
                = (None, d2) /\
                ((exists strerror,
                     how = Raised (FileError strerror) /\ w' = w3 /\
                     to_csv d2 (path_join "data" "submissions_data.csv") rows
                     = (Some strerror, d')) \/
                 (to_csv d2 (path_join "data" "submissions_data.csv") rows = (None, d') /\
                  ((how = Completed /\ kill_webdriver w3 = (Ok tt, w')) \/
                   (exists e,
                       how = Raised (Python e) /\
                       kill_webdriver w3 = (Raise e, w')))))))))).
Proof.
  unfold main, scrape, and_then.
  destruct (deploy_firefox path_to_geckodriver headless w) as [[u1|e] w1].
  2:{ intros H. inversion H; subst. left. now exists e. }
  destruct (visit_main_page w1) as [[u2|e] w2].
  2:{ intros H. inversion H; subst. left. now exists e. }
  destruct (parse_submissions fuel w2) as [[[result_dict|e] w3]|] eqn:Hscrape;
    [| |discriminate].
  2:{ intros H. inversion H; subst. left. now exists e. }
  destruct (scraped_aggregate_exports _ _ _ _ Hscrape) as [rows [Hrows Hlen]].
  intros H. right. exists result_dict, w3, rows.
  split; [reflexivity|]. split; [exact Hrows|]. split; [exact Hlen|].
  unfold ensure_data_dir in H.
  assert (Hready : forall d1,
             (if isdir d "data" then (None, d) else mkdir d "data") = (None, d1) ->
             data_dir_ready d d1).
  { intros d1. unfold data_dir_ready. destruct (isdir d "data").
    - intros Heq. inversion Heq. now left.
    - intros Heq. now right. }
  destruct (if isdir d "data" then (None, d) else mkdir d "data")
    as [[strerror|] d1] eqn:Hdir.
  - inversion H; subst. left. exists strerror.
    destruct (isdir d "data"); [discriminate|]. auto.
  - right. exists d1. split; [now apply Hready|].
    unfold write_to_json_file in H. simpl in H.
    destruct (dump_json d1 (path_join "data" "submissions_data.json") (VDict result_dict))
      as [[strerror|] d2] eqn:Hjson.
    + inversion H; subst. left. now exists strerror.
    + right. exists d2. split; [reflexivity|].
      unfold write_to_csv_file in H. rewrite Hrows in H.
      destruct (to_csv d2 (path_join "data" "submissions_data.csv") rows)
        as [[strerror|] d3] eqn:Hcsv.
      * inversion H; subst. left. now exists strerror.
      * right. destruct (kill_webdriver w3) as [[[]|e] w4] eqn:Hkill;
          inversion H; subst; split; auto.
        right. now exists e.
Qed.

(** X12. When the browser starts, the page opens, the site can be crawled
    to the end, [data] is a directory or [os.mkdir] creates it, the two file
    writes are accepted and closing works, [main] completes, for every bound
    not below the number of pages: the JSON writer is handed the source, the
    time and the records of all pages in order, the CSV writer the rows of all
    sub-items in order, and the browser is closed, then quit. *)
Theorem main_completes (fuel : nat) (path_to_geckodriver : option string) (headless : bool)
  (w w1 w2 w3 w4 w5 : world) (pages : list (list value)) (d d1 d2 d3 : disk) :
  deploy_firefox path_to_geckodriver headless w = (Ok tt, w1) ->
  visit_main_page w1 = (Ok tt, w2) ->
  crawl w2 pages w3 ->
  List.length pages <= fuel ->
  data_dir_ready d d1 ->
  dump_json d1 (path_join "data" "submissions_data.json")
    (VDict (aggregate (now w3) (concat pages)))
  = (None, d2) ->
  to_csv d2 (path_join "data" "submissions_data.csv")
    (flat_map (rows_of_record (metadata (now w3))) (concat pages))
  = (None, d3) ->
  driver_close w3 = (Ok tt, w4) ->
  driver_quit w4 = (Ok tt, w5) ->
  main fuel path_to_geckodriver headless w d = Some (Completed, w5, d3) /\
  List.length (flat_map (rows_of_record (metadata (now w3))) (concat pages))
  = list_sum (map record_subitems (concat pages)).
Proof.
  intros Hdeploy Hvisit Hcrawl Hfuel Hdir Hjson Hcsv Hclose Hquit.
  destruct (write_to_csv_shape (now w3) (concat pages) (crawl_shape _ _ _ Hcrawl))
    as [rows [Hrun Hlen]].
  assert (Hok : container (write_to_csv (aggregate (now w3) (concat pages))) = Ok rows)
    by now rewrite Hrun.
  assert (Hrows := write_to_csv_rows (aggregate (now w3) (concat pages)) (concat pages) rows
                     eq_refl eq_refl Hok).
  simpl Dict.remove in Hrows. fold (metadata (now w3)) in Hrows. subst rows.
  split; [|exact Hlen].
  unfold main. rewrite Hdeploy, Hvisit.
  unfold parse_submissions. rewrite (crawl_pagination _ _ _ Hcrawl fuel [] Hfuel).
  simpl app. fold (aggregate (now w3) (concat pages)).
  assert (Hensure : ensure_data_dir d = (None, d1)).
  { unfold ensure_data_dir. destruct Hdir as [[-> ->]|[-> Hmk]]; auto. }
  rewrite Hensure.
  unfold write_to_json_file, write_to_json. cbv iota beta.
  rewrite Hjson. unfold write_to_csv_file. rewrite Hok, Hcsv.
  assert (Hkill : kill_webdriver w3 = (Ok tt, w5)).
  { unfold kill_webdriver, and_then. now rewrite Hclose. }
  now rewrite Hkill.
Qed.

End MainFacts.

(** ** Runs on the static site *)

Import StaticSite.

(** The scenario of one page with [Party] (one file) and [NGO] (no file):
    one record, both keys in the nested document, one flat row. *)
Example single_page_scenario :
  parse_submissions 1 single_page = Some (Ok single_page_aggregate, single_page) /\
  document_subitems (fst (export single_page_aggregate)) = 1 /\
  exists row,
    container (snd (export single_page_aggregate)) = Ok [row] /\
    Dict.get "entity_type" row = Some (VStr "Party").
Proof. split; [reflexivity|]. split; [reflexivity|]. eexists. split; reflexivity. Qed.

(** The scenario of two pages, two records then one: the records come in
    page order, and the category outside the list is in neither export. *)
Example two_pages_scenario :
  map (fun record => match record with
                     | VDict fields => Dict.get "title" fields
                     | _ => None
                     end)
      (records_of two_pages ++ records_of two_pages_end)
  = [Some (VStr "p1r1"); Some (VStr "p1r2"); Some (VStr "p2r1")] /\
  Dict.get "submissions_data" two_pages_aggregate
  = Some (VList (records_of two_pages ++ records_of two_pages_end)).
Proof. split; reflexivity. Qed.

Example internal_category_absent :
  map record_subitems single_page_records = [1] /\
  match container (write_to_csv single_page_aggregate) with
  | Ok rows => map (Dict.get "entity_type") rows
  | Raise _ => []
  end = [Some (VStr "Party")].
Proof. split; reflexivity. Qed.

(** C8, the claim as stated fails: the sub-region is found, reading its
    text raises [NoSuchElementException], and the extractor returns [None]
    instead of letting the failure out. *)
Lemma text_failure_resolved_as_absence :
  find_element tt Vanishing.Cell TITLE_XPATH = Ok Vanishing.Title /\
  text tt Vanishing.Title = Raise NoSuchElementException /\
  find_text_element tt Vanishing.Cell TITLE_XPATH = Ok None.
Proof. repeat split; reflexivity. Qed.

(** C8 (as amended) on the sample pages: a title that is there, a deadline
    that is not, a title whose text cannot be read, and a dead session. *)
Lemma find_text_element_on_samples :
  let cell := Grid (grid_of "Call 1" []) in
  let lost := {| session_alive := false; current := current single_page;
                 following := []; clock := clock single_page |} in
  find_text_element single_page cell TITLE_XPATH = Ok (Some "Call 1") /\
  find_text_element single_page cell DEADLINE_XPATH = Ok None /\
  find_text_element tt Vanishing.Cell TITLE_XPATH = Ok None /\
  find_text_element lost cell TITLE_XPATH = Raise dead.
Proof.
  intros cell lost. split; [|split; [|split]].
  - apply (proj2 (proj1 (find_text_element_cases single_page cell TITLE_XPATH) "Call 1")).
    exists (Region "Call 1"). split; reflexivity.
  - apply (proj2 (proj1 (proj2 (find_text_element_cases single_page cell DEADLINE_XPATH)))).
    left. reflexivity.
  - apply (proj2 (proj1 (proj2 (find_text_element_cases tt Vanishing.Cell TITLE_XPATH)))).
    right. exists Vanishing.Title. split; reflexivity.
  - apply (proj2 (proj2 (proj2 (find_text_element_cases lost cell TITLE_XPATH)) dead)).
    split; [discriminate|]. left. reflexivity.
Defined.

(** C1 on the sample page: the row with no text region at all still gets
    its URL. *)
Lemma bare_row_gets_url :
  _parse_submissions single_page = Ok single_page_records /\
  exists grid row url ref item_fields,
    row_of_category single_page grid "Party" row /\
    item_of_row single_page row bare_item /\
    current_url single_page = Ok url /\
    get_attribute single_page row "fileref" = Ok (Some ref) /\
    bare_item = VDict item_fields /\
    Dict.get "submission_url" item_fields = Some (VStr (replace url HOME_PATH ref)).
Proof.
  assert (Hrun : _parse_submissions single_page = Ok single_page_records)
    by reflexivity.
  split; [exact Hrun|].
  eapply (submission_url_always_string single_page single_page_records Hrun
            _ _ _ "Party" [bare_item] bare_item).
  - left. reflexivity.
  - reflexivity.
  - reflexivity.
  - left. reflexivity.
  - left. reflexivity.
Defined.

(** C2 on the sample page: [Party] is an allowed key, and the [Internal]
    group changes nothing. *)
Lemma internal_group_dropped :
  _parse_submissions single_page = Ok single_page_records /\
  In "Party" RELEVANT_ENTITY_TYPES /\
  parse_section single_page [("Party", VList [])]
    (Section (sec "Internal" [row_full; row_full; row_full]))
  = Ok [("Party", VList [])].
Proof.
  assert (Hrun : _parse_submissions single_page = Ok single_page_records)
    by reflexivity.
  split; [exact Hrun|].
  destruct (submissions_keys_allowed single_page single_page_records Hrun)
    as [Hkeys Hskip].
  split.
  - eapply (Hkeys _ _ _ "Party").
    + left. reflexivity.
    + reflexivity.
    + reflexivity.
    + left. reflexivity.
  - apply (Hskip _ (Some "Internal")); [reflexivity|].
    intros category Heq Hin. inversion Heq; subst category.
    simpl in Hin. repeat (destruct Hin as [Hin|Hin]; [discriminate Hin|]). exact Hin.
Defined.

(** C3 on two pages: records in page order, then in the order of the
    page. *)
Lemma two_pages_in_order :
  parse_submissions 5 two_pages = Some (Ok two_pages_aggregate, two_pages_end) /\
  exists pages,
    crawl two_pages pages two_pages_end /\ List.length pages <= 5 /\
    two_pages_aggregate
    = [ ("data_source", VStr SUBMISSIONS_URL);
        ("collected_at", VStr (now two_pages_end));
        ("submissions_data", VList (concat pages)) ].
Proof.
  split; [reflexivity|].
  apply (proj1 (aggregate_is_concatenation 5 two_pages two_pages_end two_pages_aggregate)).
  reflexivity.
Defined.

(** C4, the claim as stated fails: the next-page link is on the page, the
    click on it raises, and the loop is left normally with the records of the
    first page. *)
Lemma blocked_link_ends_loop :
  driver_find_element blocked_link NEXT_XPATH = Ok NextLink /\
  click blocked_link NextLink
  = (Raise (WebDriverException "element click intercepted"), blocked_link) /\
  turn_page blocked_link = Done blocked_link /\
  parse_submissions 1 blocked_link
  = Some (Ok (aggregate (now blocked_link) (records_of blocked_link)), blocked_link).
Proof. repeat split; reflexivity. Qed.

(** C4 (as amended) on the sample sites: a failing click ends the loop, a
    timeout of the wait is fatal, a working link continues. *)
Lemma page_turns_on_samples :
  (exists w', turn_page blocked_link = Done w') /\
  turn_page slow_second_page
  = Fatal TimeoutException
      (world_of {| p_url := SUBMISSIONS_URL; p_grids := []; p_next := NoLink;
                   p_loads := false |} []) /\
  turn_page two_pages = Continue two_pages_end.
Proof.
  split; [|split].
  - apply (proj2 (proj1 (loop_left_when_link_lookup_or_click_fails blocked_link))).
    right. exists NextLink, (WebDriverException "element click intercepted"), blocked_link.
    split; reflexivity.
  - destruct (proj1 (proj2 (loop_left_when_link_lookup_or_click_fails slow_second_page))
                NextLink tt
                (world_of {| p_url := SUBMISSIONS_URL; p_grids := []; p_next := NoLink;
                             p_loads := false |} []))
      as [Hfatal _]; [reflexivity|reflexivity|].
    apply Hfatal. reflexivity.
  - destruct (proj1 (proj2 (loop_left_when_link_lookup_or_click_fails two_pages))
                NextLink tt two_pages_end)
      as [_ Hnext]; [reflexivity|reflexivity|].
    apply (Hnext tt two_pages_end tt two_pages_end); reflexivity.
Defined.

(** C5, the claim as stated fails: the flat export removes the record list
    from the aggregate and writes into the sub-items, so the nested document
    written after it is not the one written before it. *)
Lemma flat_export_changes_aggregate :
  Dict.get "submissions_data" single_page_aggregate = Some (VList single_page_records) /\
  Dict.get "submissions_data" (aggregate_after (write_to_csv single_page_aggregate)) = None /\
  submissions_all_after (write_to_csv single_page_aggregate)
  = Some (VList (map tagged_record single_page_records)) /\
  map tagged_record single_page_records <> single_page_records /\
  fst (export single_page_aggregate) = VDict single_page_aggregate /\
  snd (export_csv_first single_page_aggregate) = VDict (metadata (clock single_page)) /\
  snd (export_csv_first single_page_aggregate) <> fst (export single_page_aggregate).
Proof. repeat split; try reflexivity; discriminate. Qed.

(** C5 (as amended) on the sample page. *)
Lemma exports_of_single_page :
  parse_submissions 1 single_page = Some (Ok single_page_aggregate, single_page) /\
  write_to_json single_page_aggregate = (VDict single_page_aggregate, single_page_aggregate) /\
  export single_page_aggregate
  = (VDict single_page_aggregate, write_to_csv single_page_aggregate) /\
  exists records,
    Dict.get "submissions_data" single_page_aggregate = Some (VList records) /\
    aggregate_after (write_to_csv single_page_aggregate)
    = Dict.remove "submissions_data" single_page_aggregate /\
    aggregate_after (write_to_csv single_page_aggregate) = metadata (now single_page) /\
    submissions_all_after (write_to_csv single_page_aggregate)
    = Some (VList (map tagged_record records)).
Proof.
  split; [reflexivity|].
  apply (only_nested_export_is_read_only 1 single_page single_page single_page_aggregate).
  reflexivity.
Defined.

(** C6, the claim as stated fails: the first run yields a row, the second
    run on the same aggregate raises. *)
Lemma second_flat_export_raises :
  exists row,
    container (write_to_csv single_page_aggregate) = Ok [row] /\
    container (write_to_csv (aggregate_after (write_to_csv single_page_aggregate)))
    = Raise (KeyError "submissions_data").
Proof. eexists. split; reflexivity. Qed.

(** C6 (as amended) on the sample page: the second run raises, and with
    the record list put back it yields the row of the first run again. *)
Lemma flat_export_twice_on_single_page :
  exists submissions_all,
    container (write_to_csv single_page_aggregate) = Ok [single_page_row] /\
    container (write_to_csv (aggregate_after (write_to_csv single_page_aggregate)))
    = Raise (KeyError "submissions_data") /\
    submissions_all_after (write_to_csv single_page_aggregate) = Some submissions_all /\
    container
      (write_to_csv
         (Dict.set "submissions_data" submissions_all
            (aggregate_after (write_to_csv single_page_aggregate))))
    = Ok [single_page_row].
Proof.
  assert (Hrun : container (write_to_csv single_page_aggregate) = Ok [single_page_row])
    by reflexivity.
  destruct (flat_export_repeats_only_after_restore single_page_aggregate
              [single_page_row] Hrun)
    as [Hraise Hrestore].
  destruct (Hrestore eq_refl) as [submissions_all [Hall Hsame]].
  exists submissions_all. repeat split; assumption.
Defined.

(** C7 on two pages: three sub-items, three rows. *)
Lemma three_rows_for_three_subitems :
  parse_submissions 5 two_pages = Some (Ok two_pages_aggregate, two_pages_end) /\
  document_subitems (fst (export two_pages_aggregate)) = 3 /\
  exists rows,
    container (snd (export two_pages_aggregate)) = Ok rows /\
    List.length rows = document_subitems (fst (export two_pages_aggregate)).
Proof.
  split; [reflexivity|]. split; [reflexivity|].
  apply (flat_rows_match_nested_subitems 5 two_pages two_pages_end two_pages_aggregate).
  reflexivity.
Defined.

(** C9, the claim as stated fails: the first [Party] group has no file row,
    and the key is bound to the item of the second [Party] group. *)
Lemma repeated_category_rebinds_key :
  let first := Section (sec "Party" []) in
  let second := Section (sec "Party" [row_full]) in
  exists grid categories item,
    driver_find_elements repeated_category GRID_XPATH = Ok [grid] /\
    find_elements repeated_category grid SECTION_XPATH = Ok [first; second] /\
    get_attribute repeated_category first "entitytype" = Ok (Some "Party") /\
    In "Party" RELEVANT_ENTITY_TYPES /\
    find_elements repeated_category first ROW_XPATH = Ok [] /\
    _parse_submissions repeated_category
    = Ok [submission_record (Some "Adaptation") None (Some "Call 1") None categories] /\
    Dict.get "Party" categories = Some (VList [item]) /\
    Dict.get "Party" categories <> Some (VList []).
Proof.
  intros first second. do 3 eexists.
  repeat split; try reflexivity.
  - simpl. tauto.
  - discriminate.
Qed.

(** C9 (as amended) on the sample page: the [NGO] group has no file row and
    no later group is an [NGO] group. *)
Lemma empty_ngo_group_keeps_key :
  let cell :=
    Grid (grid_of "Call 1" [sec "Party" [row_bare]; sec "NGO" [];
                            sec "Internal" [row_full; row_full; row_full]]) in
  exists record fields categories,
    In record single_page_records /\ parse_grid single_page cell = Ok record /\
    record = VDict fields /\
    Dict.get "submissions" fields = Some (VDict categories) /\
    Dict.mem "NGO" categories = true /\
    Dict.get "NGO" categories = Some (VList []).
Proof.
  intros cell.
  destruct (empty_group_keeps_its_key single_page single_page_records [cell] cell
              [Section (sec "Party" [row_bare])]
              [Section (sec "Internal" [row_full; row_full; row_full])]
              (Section (sec "NGO" [])) "NGO")
    as [record [fields [categories [H1 [H2 [H3 [H4 [H5 H6]]]]]]]];
    try reflexivity.
  - left. reflexivity.
  - simpl. tauto.
  - exists record, fields, categories. repeat split; auto.
    apply H6. intros later [<-|[]]. discriminate.
Defined.

(** C10 on two pages: the record without any group has the key and yields
    no row. *)
Lemma record_without_groups_yields_no_row :
  let record := submission_record (Some "Adaptation") None (Some "p1r2") None [] in
  _parse_submissions two_pages = Ok (records_of two_pages) /\
  In record (records_of two_pages) /\
  contains "submissions" record = Ok true /\
  fst (flatten_issue (metadata (clock two_pages)) record) = Ok [].
Proof.
  intros record. split; [reflexivity|].
  assert (Hin : In record (records_of two_pages)) by (right; left; reflexivity).
  split; [exact Hin|].
  assert (Hpage : _parse_submissions two_pages = Ok (records_of two_pages))
    by reflexivity.
  destruct (every_record_passes_guard two_pages (records_of two_pages) Hpage
              record (clock two_pages) Hin)
    as [Hguard [fields [categories [rows [Hrec [Hget [Hrun [_ Hzero]]]]]]]].
  split; [exact Hguard|].
  rewrite Hrun. f_equal. apply Hzero.
  inversion Hrec; subst fields. simpl in Hget. inversion Hget. constructor.
Defined.

(** ** More runs on the static site *)

Import MoreSites.

(** X1 on the sample page. *)
Lemma single_page_has_one_record_per_cell :
  _parse_submissions single_page = Ok single_page_records /\
  exists grids,
    driver_find_elements single_page GRID_XPATH = Ok grids /\
    List.length single_page_records = List.length grids /\
    forall i grid record,
      nth_error grids i = Some grid -> nth_error single_page_records i = Some record ->
      parse_grid single_page grid = Ok record /\ record_of_grid single_page grid record.
Proof.
  assert (Hrun : _parse_submissions single_page = Ok single_page_records) by reflexivity.
  split; [exact Hrun|].
  exact (one_record_per_grid_cell single_page single_page_records Hrun).
Defined.

(** X2 on a page whose second row has no [fileref]: the page raises
    [TypeError], although the first row is fine. *)
Lemma missing_fileref_raises :
  _parse_submissions missing_fileref = Raise TypeError /\
  (exists e, _parse_submissions missing_fileref = Raise e) /\
  (forall url submissions,
      current_url missing_fileref = Ok url ->
      parse_row missing_fileref "Party" submissions (Row row_no_fileref) = Raise TypeError).
Proof.
  split; [reflexivity|].
  apply (row_without_fileref_fails_page missing_fileref
           [Grid (grid_of "Call 1" [sec "Party" [row_full; row_no_fileref]])]
           (Grid (grid_of "Call 1" [sec "Party" [row_full; row_no_fileref]]))
           "Party" (Row row_no_fileref)).
  - reflexivity.
  - left. reflexivity.
  - exists [Section (sec "Party" [row_full; row_no_fileref])],
      (Section (sec "Party" [row_full; row_no_fileref])),
      [Row row_full; Row row_no_fileref].
    repeat split; try reflexivity.
    + left. reflexivity.
    + right. left. reflexivity.
  - simpl. tauto.
  - reflexivity.
Defined.


(** X4 on the listing served from another address: the item's URL is the
    address of the page, not the file. *)
Lemma moved_site_keeps_page_url :
  _parse_submissions moved_site = Ok moved_records /\
  is_substring HOME_PATH "https://unfccc.int/submissions" = false /\
  exists item_fields,
    submission_item (Some "a.pdf") (Some "Fiji") (Some "English") (Some "01/02/2021")
      "https://unfccc.int/submissions"
    = VDict item_fields /\
    Dict.get "submission_url" item_fields = Some (VStr "https://unfccc.int/submissions").
Proof.
  assert (Hrun : _parse_submissions moved_site = Ok moved_records) by reflexivity.
  assert (Hurl : current_url moved_site = Ok "https://unfccc.int/submissions")
    by reflexivity.
  assert (Hno : is_substring HOME_PATH "https://unfccc.int/submissions" = false)
    by reflexivity.
  split; [exact Hrun|]. split; [exact Hno|].
  eapply (url_without_listing_path_is_kept moved_site moved_records _ Hrun Hurl Hno
            _ _ _ "Party" _ _).
  - left. reflexivity.
  - reflexivity.
  - reflexivity.
  - left. reflexivity.
  - left. reflexivity.
Defined.



(** X7 on a next-page link that leads back to its own page. *)
Lemma endless_site_never_returns : parse_submissions 1000 endless = None.
Proof.
  apply (pagination_never_ends_while_links_work (fun w => w = endless)); [|reflexivity].
  intros w ->. split.
  - eexists. reflexivity.
  - exists endless. split; reflexivity.
Defined.

(** X8 on two pages. *)
Lemma two_pages_rows_are_projection :
  parse_submissions 5 two_pages = Some (Ok two_pages_aggregate, two_pages_end) /\
  List.length two_pages_rows = 3 /\
  exists records rows,
    Dict.get "submissions_data" two_pages_aggregate = Some (VList records) /\
    container (write_to_csv two_pages_aggregate) = Ok rows /\
    rows = flat_map (rows_of_record (metadata (now two_pages_end))) records.
Proof.
  assert (Hrun : parse_submissions 5 two_pages = Some (Ok two_pages_aggregate, two_pages_end))
    by reflexivity.
  split; [exact Hrun|]. split; [reflexivity|].
  exact (flat_export_is_ordered_projection 5 two_pages two_pages_end two_pages_aggregate Hrun).
Defined.

(** X9 on an aggregate already exported once (only the metadata are left),
    and on one whose record list is [None]. *)
Lemma flat_export_errors_on_samples :
  container (write_to_csv (metadata "03-11-2026 10:00:00"))
  = Raise (KeyError "submissions_data") /\
  aggregate_after (write_to_csv (metadata "03-11-2026 10:00:00"))
  = metadata "03-11-2026 10:00:00" /\
  exists e,
    container (write_to_csv [("submissions_data", VNone)]) = Raise e /\
    (e = KeyError "submissions_data" \/ e = TypeError \/ e = AttributeError).
Proof.
  destruct (flat_export_errors (metadata "03-11-2026 10:00:00")) as [Hkey [Hsame _]].
  split; [apply (proj1 Hkey); reflexivity|].
  split; [apply Hsame; reflexivity|].
  exists TypeError. split; [reflexivity|].
  apply (proj2 (proj2 (flat_export_errors [("submissions_data", VNone)]))).
  reflexivity.
Defined.

(** X10 on two pages. *)
Lemma two_pages_rows_have_twelve_columns :
  parse_submissions 5 two_pages = Some (Ok two_pages_aggregate, two_pages_end) /\
  List.length two_pages_rows = 3 /\
  exists rows,
    container (write_to_csv two_pages_aggregate) = Ok rows /\
    Forall (scraped_row (now two_pages_end)) rows.
Proof.
  assert (Hrun : parse_submissions 5 two_pages = Some (Ok two_pages_aggregate, two_pages_end))
    by reflexivity.
  split; [exact Hrun|]. split; [reflexivity|].
  exact (flat_rows_have_twelve_columns 5 two_pages two_pages_end two_pages_aggregate Hrun).
Defined.

(** X11 on two pages, with a directory standing where the CSV file should
    go: the JSON file is written, [to_csv] is refused, and the browser is left
    open. *)
Lemma main_stops_on_refused_csv :
  main 5 (Some "resources/geckodriver") HEADLESS two_pages (DataDir None None true)
  = Some (Raised (FileError "Is a directory"), two_pages_end,
          DataDir (Some (VDict two_pages_aggregate)) None true) /\
  exists result_dict w3 rows,
    scrape 5 (Some "resources/geckodriver") HEADLESS two_pages
    = Some (Ok result_dict, w3) /\
    container (write_to_csv result_dict) = Ok rows /\
    List.length rows = document_subitems (VDict result_dict) /\
    exists d2,
      dump_json (DataDir None None true) (path_join "data" "submissions_data.json")
        (VDict result_dict)
      = (None, d2) /\
      to_csv d2 (path_join "data" "submissions_data.csv") rows
      = (Some "Is a directory", DataDir (Some (VDict two_pages_aggregate)) None true) /\
      two_pages_end = w3.
Proof.
  assert (Hrun : main 5 (Some "resources/geckodriver") HEADLESS two_pages
                   (DataDir None None true)
                 = Some (Raised (FileError "Is a directory"), two_pages_end,
                         DataDir (Some (VDict two_pages_aggregate)) None true))
    by reflexivity.
  split; [exact Hrun|].
  destruct (main_closes_browser_only_after_both_writes _ _ _ _ _ _ _ _ Hrun)
    as [[e [Hhow _]]|[result_dict [w3 [rows [Hscrape [Hrows [Hlen Hcases]]]]]]].
  - discriminate Hhow.
  - exists result_dict, w3, rows. split; [exact Hscrape|]. split; [exact Hrows|].
    split; [exact Hlen|].
    destruct Hcases as [[strerror [_ [_ [Hisdir _]]]]|[d1 [Hready Hwrites]]].
    + discriminate Hisdir.
    + assert (Hd1 : d1 = DataDir None None true).
      { destruct Hready as [[_ ->]|[Hisdir _]]; [reflexivity|discriminate Hisdir]. }
      subst d1.
      destruct Hwrites as [[strerror [_ [_ Hjson]]]|[d2 [Hjson Hcsv]]].
      * discriminate Hjson.
      * exists d2. split; [exact Hjson|].
        destruct Hcsv as [[strerror [Hhow [Hw Hcsv]]]|[_ [[Hhow _]|[e [Hhow _]]]]].
        -- inversion Hhow; subst strerror. split; [exact Hcsv|exact Hw].
        -- discriminate Hhow.
        -- discriminate Hhow.
Defined.

(** X12 on two pages, with no [data] directory yet. *)
Lemma main_completes_on_two_pages :
  main 5 None true two_pages NoData
  = Some (Completed, two_pages_closed,
          DataDir
            (Some (VDict (aggregate (now two_pages_end)
                            (concat [records_of two_pages; records_of two_pages_end]))))
            (Some (flat_map (rows_of_record (metadata (now two_pages_end)))
                     (concat [records_of two_pages; records_of two_pages_end])))
            false) /\
  List.length (flat_map (rows_of_record (metadata (now two_pages_end)))
                 (concat [records_of two_pages; records_of two_pages_end]))
  = list_sum (map record_subitems
                (concat [records_of two_pages; records_of two_pages_end])).
Proof.
  apply (main_completes 5 None true two_pages two_pages two_pages two_pages_end
           two_pages_end two_pages_closed
           [records_of two_pages; records_of two_pages_end]
           NoData (DataDir None None false)
           (DataDir
              (Some (VDict (aggregate (now two_pages_end)
                              (concat [records_of two_pages; records_of two_pages_end]))))
              None false)).
  - reflexivity.
  - reflexivity.
  - apply (crawl_more two_pages two_pages_end two_pages_end);
      [reflexivity|reflexivity|].
    apply crawl_last; reflexivity.
  - simpl. lia.
  - right. split; reflexivity.
  - reflexivity.
  - reflexivity.
  - reflexivity.
  - reflexivity.
Defined.
